(** * github-releases-summary: release fetcher, summarizer clients and
      repository list, embedded from [src/src/github_release.py],
      [src/src/gpt.py] and [src/app.py].

    Conventions of the embedding.
    - A Python [str] is a [string]; each character stands for one code point
      below 256.
    - A Python [int] is a [Z].
    - A call that may raise returns an [outcome]: [Ok v] or [Raise e].
    - A [while True] loop runs on fuel; [None] means the fuel ran out.
    - Text sent to standard output by [print] is not part of the model. *)

From Stdlib Require Import ZArith Ascii String List Lia Bool QArith.
From Stdlib Require DecimalString DecimalZ DecimalPos.
From stdpp Require Import base tactics option list gmap strings.

Local Open Scope string_scope.
Local Open Scope list_scope.
Local Open Scope Z_scope.

(** ** Exceptions and outcomes *)

Module Py.

(** The classes the program meets.  [BaseOnly] stands for the classes that
    derive from [BaseException] but not from [Exception]
    (KeyboardInterrupt, CancelledError, ...): [except Exception] lets them
    through. *)
Inductive exn_class :=
| ValueError
| TypeError
| IndexError
| AttributeError
| OverflowError
| OtherException (name : string)
| BaseOnly (name : string).

Record exn := Exn { exn_cls : exn_class; exn_str : string }.

(** [isinstance(e, Exception)] *)
Definition is_Exception (e : exn) : bool :=
  match exn_cls e with
  | BaseOnly _ => false
  | _ => true
  end.

Inductive outcome (A : Type) :=
| Ok (a : A)
| Raise (e : exn).
Arguments Ok {A} a.
Arguments Raise {A} e.

Definition bind {A B} (m : outcome A) (k : A -> outcome B) : outcome B :=
  match m with
  | Ok a => k a
  | Raise e => Raise e
  end.

(** *** Strings *)

Definition ascii_eqb (a b : ascii) : bool := Ascii.eqb a b.
Arguments ascii_eqb : simpl never.

(** [c.isspace()] on the code points below 256. *)
Definition isspace (c : ascii) : bool :=
  let n := nat_of_ascii c in
  ((9 <=? n) && (n <=? 13) || (28 <=? n) && (n <=? 32)
   || (n =? 133) || (n =? 160))%nat.

Fixpoint lstrip (s : string) : string :=
  match s with
  | String c s' => if isspace c then lstrip s' else s
  | EmptyString => EmptyString
  end.

Fixpoint rstrip (s : string) : string :=
  match s with
  | EmptyString => EmptyString
  | String c s' =>
      match rstrip s' with
      | EmptyString => if isspace c then EmptyString else String c EmptyString
      | r => String c r
      end
  end.

(** [s.strip()] *)
Definition strip (s : string) : string := rstrip (lstrip s).

(** [s.startswith(p)] *)
Fixpoint startswith (p s : string) : bool :=
  match p, s with
  | EmptyString, _ => true
  | String a p', String b s' => ascii_eqb a b && startswith p' s'
  | String _ _, EmptyString => false
  end.

(** [c in s] for a one-character [c] *)
Fixpoint contains (c : ascii) (s : string) : bool :=
  match s with
  | EmptyString => false
  | String d s' => ascii_eqb d c || contains c s'
  end.

(** [s.split(c, 1)]: at most one cut, at the first [c]. *)
Fixpoint split1 (c : ascii) (s : string) : list string :=
  match s with
  | EmptyString => [EmptyString]
  | String d s' =>
      if ascii_eqb d c then [EmptyString; s']
      else match split1 c s' with
           | x :: rest => String d x :: rest
           | [] => []
           end
  end.

(** The longest run without [c] at the start of a string, and the rest;
    used to describe what the matcher below finds. *)
Fixpoint span (c : ascii) (s : string) : string * string :=
  match s with
  | EmptyString => (EmptyString, EmptyString)
  | String d s' =>
      if ascii_eqb d c then (EmptyString, s)
      else let '(g, rest) := span c s' in (String d g, rest)
  end.

(** [str(n)] and [f"{n}"] for an int. *)
Definition str_of_int (n : Z) : string :=
  DecimalString.NilZero.string_of_int (Z.to_int n).

(** [s.lower()] on the code points below 256: the upper-case letters are
    A-Z, and 192-222 without the multiplication sign 215. *)
Definition lower_char (c : ascii) : ascii :=
  let n := nat_of_ascii c in
  if ((65 <=? n) && (n <=? 90)
      || (192 <=? n) && (n <=? 222) && negb (n =? 215))%nat
  then ascii_of_nat (n + 32) else c.

Fixpoint lower (s : string) : string :=
  match s with
  | EmptyString => EmptyString
  | String c s' => String (lower_char c) (lower s')
  end.

(** Two characters, then two strings, that are equal up to the case of
    the letters A-Z. *)
Definition same_letter (a b : ascii) : bool :=
  let m := nat_of_ascii a in
  let n := nat_of_ascii b in
  ascii_eqb a b
  || ((65 <=? m) && (m <=? 90) && (n =? m + 32))%nat
  || ((65 <=? n) && (n <=? 90) && (m =? n + 32))%nat.

Fixpoint same_ignoring_case (s t : string) : bool :=
  match s, t with
  | EmptyString, EmptyString => true
  | String a s', String b t' => same_letter a b && same_ignoring_case s' t'
  | _, _ => false
  end.

(** The lower-case letters a-z. *)
Definition is_lower_letter (c : ascii) : bool :=
  let n := nat_of_ascii c in ((97 <=? n) && (n <=? 122))%nat.

Fixpoint all_lower_letters (s : string) : bool :=
  match s with
  | EmptyString => true
  | String c s' => is_lower_letter c && all_lower_letters s'
  end.

(** Every character there is. *)
Definition all_ascii : list ascii := map ascii_of_nat (seq 0 256).

(** *** A backtracking matcher for the patterns of the program

    [re.match] tries the pattern at the start of the string and does not
    require it to reach the end.  An atom is a literal character or a
    capturing group [([^c]+)]; the group is greedy: it tries the longest
    run first and gives characters back one at a time. *)
Inductive atom :=
| Lit (c : ascii)
| GroupNotPlus (c : ascii).

Fixpoint greedy {R} (c : ascii) (k : string -> string -> option R)
    (s : string) : option R :=
  match s with
  | EmptyString => None
  | String d s' =>
      if ascii_eqb d c then None
      else match greedy c (fun g rest => k (String d g) rest) s' with
           | Some r => Some r
           | None => k (String d EmptyString) s'
           end
  end.

Fixpoint re_match (p : list atom) (s : string) : option (list string) :=
  match p with
  | [] => Some []
  | Lit c :: p' =>
      match s with
      | String d s' => if ascii_eqb c d then re_match p' s' else None
      | EmptyString => None
      end
  | GroupNotPlus c :: p' =>
      greedy c (fun g rest => cons g <$> re_match p' rest) s
  end.

Fixpoint lits (s : string) : list atom :=
  match s with
  | EmptyString => []
  | String c s' => Lit c :: lits s'
  end.

(** *** Values

    What [json.load] and [resp.json()] build, and what an attribute typed
    [Optional[str]] holds.  A JSON number is kept by its integer value. *)
#[warning="-register-all"]
Inductive pyval :=
| PNone
| PBool (b : bool)
| PInt (n : Z)
| PStr (s : string)
| PList (l : list pyval)
| PDict (d : gmap string pyval).

(** [bool(v)] *)
Definition truthy (v : pyval) : bool :=
  match v with
  | PNone => false
  | PBool b => b
  | PInt n => negb (n =? 0)
  | PStr s => negb (String.eqb s "")
  | PList l => match l with [] => false | _ => true end
  | PDict d => negb (Nat.eqb (size d) 0)
  end.

(** [a or b] *)
Definition py_or (a b : pyval) : pyval := if truthy a then a else b.

(** [d.get(k)] *)
Definition dict_get (d : gmap string pyval) (k : string) : pyval :=
  default PNone (d !! k).

Definition nl : string := String (ascii_of_nat 10) EmptyString.

(** ["".join(l)] *)
Definition join (l : list string) : string := foldr String.append "" l.

(** A string of whitespace only. *)
Fixpoint all_space (s : string) : bool :=
  match s with
  | EmptyString => true
  | String c s' => isspace c && all_space s'
  end.

End Py.

Import Py.

(** ** Release fetcher: [parse_repo_input] *)

Module Repo.

(** The literal that appears in the test and at the head of the pattern. *)
Definition url_prefix : string := "https://github.com/".

(** [r"https://github\.com/([^/]+)/([^/]+)"] *)
Definition pattern : list atom :=
  lits url_prefix ++ [GroupNotPlus "/"%char; Lit "/"%char; GroupNotPlus "/"%char].

Definition parse_repo_input (repo_input : string) : outcome (string * string) :=
  let repo_input := strip repo_input in
  if startswith url_prefix repo_input then
    match re_match pattern repo_input with
    | None => Raise (Exn ValueError "Cannot parse repository URL")
    | Some groups =>
        match groups with
        | [g1; g2] => Ok (g1, g2)
        | _ => Raise (Exn IndexError "no such group")
        end
    end
  else
    if negb (contains "/"%char repo_input) then
      Raise (Exn ValueError "Please enter in username/repo format")
    else
      match split1 "/"%char repo_input with
      | [username; repo] => Ok (username, repo)
      | _ => Raise (Exn ValueError "not enough values to unpack (expected 2, got 1)")
      end.

End Repo.

(** ** Release fetcher: naive datetimes

    A naive [datetime] is kept as its number of microseconds since
    [datetime.min] (0001-01-01T00:00:00); the order of [datetime] values is
    the order of these numbers. *)

Module Datetime.

Definition datetime := Z.

Definition us_per_day : Z := 86400 * 1000000.

(** [datetime.max.toordinal()] *)
Definition max_ordinal : Z := 3652059.

Definition in_range (t : Z) : bool :=
  (0 <=? t) && (t <? max_ordinal * us_per_day).

(** [datetime.timedelta(days=n)], as a number of microseconds.  A day
    count out of range is refused with one text when it fits a C int and
    with another when it does not. *)
Definition timedelta_days (n : Z) : outcome Z :=
  if Z.abs n <=? 999999999 then Ok (n * us_per_day)
  else if (-2147483648 <=? n) && (n <=? 2147483647) then
    Raise (Exn OverflowError
             ("days=" +:+ str_of_int n +:+ "; must have magnitude <= 999999999"))
  else Raise (Exn OverflowError "Python int too large to convert to C int").

(** [t - d] for a datetime [t] and a timedelta [d] *)
Definition sub (t : datetime) (d : Z) : outcome datetime :=
  if in_range (t - d) then Ok (t - d)
  else Raise (Exn OverflowError "date value out of range").

(** *** From calendar fields to a datetime *)

Definition is_leap (y : Z) : bool :=
  (y mod 4 =? 0) && (negb (y mod 100 =? 0) || (y mod 400 =? 0)).

Definition days_in_month (y m : Z) : Z :=
  if m =? 2 then (if is_leap y then 29 else 28)
  else if (m =? 4) || (m =? 6) || (m =? 9) || (m =? 11) then 30
  else 31.

Definition days_before_year (y : Z) : Z :=
  let p := y - 1 in p * 365 + p / 4 - p / 100 + p / 400.

Fixpoint days_before_month_aux (y : Z) (k : nat) : Z :=
  match k with
  | O => 0
  | S k' => days_before_month_aux y k' + days_in_month y (Z.of_nat k)
  end.

Definition days_before_month (y m : Z) : Z :=
  days_before_month_aux y (Z.to_nat (m - 1)).

Definition ymd2ord (y m d : Z) : Z :=
  days_before_year y + days_before_month y m + d.

(** [datetime(y, m, d, hh, mm, ss)]; [None] stands for [ValueError]. *)
Definition make (y m d hh mm ss : Z) : option datetime :=
  if (1 <=? y) && (y <=? 9999) && (1 <=? m) && (m <=? 12)
     && (1 <=? d) && (d <=? days_in_month y m)
     && (0 <=? hh) && (hh <=? 23) && (0 <=? mm) && (mm <=? 59)
     && (0 <=? ss) && (ss <=? 59)
  then Some (((ymd2ord y m d - 1) * 86400 + hh * 3600 + mm * 60 + ss) * 1000000)
  else None.

(** *** The parser for ["%Y-%m-%dT%H:%M:%SZ"]

    The library turns the format into the pattern
    [(\d\d\d\d)-(1[0-2]|0[1-9]|[1-9])-(3[0-1]|[1-2]\d|0[1-9]|[1-9]| [1-9])T(2[0-3]|[0-1]\d|\d):([0-5]\d|\d):(6[0-1]|[0-5]\d|\d)Z],
    matched without regard to case, requires the match to reach the end of
    the string and builds the datetime from the fields.  A field is followed
    by a character that is no digit, so it is the longest run of one or two
    digits whose value is in the field's range.  This is that parser on
    strings of ASCII characters; [None] stands for [ValueError]. *)

Definition digit (c : ascii) : option Z :=
  let n := nat_of_ascii c in
  if ((48 <=? n) && (n <=? 57))%nat then Some (Z.of_nat n - 48) else None.

(** exactly [k] digits *)
Fixpoint digits_exact (k : nat) (acc : Z) (s : string) : option (Z * string) :=
  match k with
  | O => Some (acc, s)
  | S k' =>
      match s with
      | String c s' =>
          match digit c with
          | Some v => digits_exact k' (10 * acc + v) s'
          | None => None
          end
      | EmptyString => None
      end
  end.

(** one or two digits, two when there are two *)
Definition digits_1_2 (s : string) : option (Z * string) :=
  match s with
  | String c s' =>
      match digit c with
      | None => None
      | Some v =>
          match s' with
          | String c' s'' =>
              match digit c' with
              | Some v' => Some (10 * v + v', s'')
              | None => Some (v, s')
              end
          | EmptyString => Some (v, s')
          end
      end
  | EmptyString => None
  end.

(** a two-digit field may not be [00] where the range starts at 1 *)
Definition field (lo hi : Z) (s : string) : option (Z * string) :=
  match digits_1_2 s with
  | Some (v, rest) => if (lo <=? v) && (v <=? hi) then Some (v, rest) else None
  | None => None
  end.

(** the day field also takes a space and a digit 1-9 *)
Definition day_field (s : string) : option (Z * string) :=
  match s with
  | String " " (String c rest) =>
      match digit c with
      | Some v => if 1 <=? v then Some (v, rest) else None
      | None => None
      end
  | _ => field 1 31 s
  end.

(** a literal character of the format, matched without regard to case *)
Definition literal (c : ascii) (s : string) : option string :=
  match s with
  | String d s' => if ascii_eqb (lower_char d) (lower_char c) then Some s' else None
  | EmptyString => None
  end.

Definition strptime_iso (s : string) : option datetime :=
  '(year, s) ← digits_exact 4 0 s;
  s ← literal "-" s;
  '(month, s) ← field 1 12 s;
  s ← literal "-" s;
  '(day, s) ← day_field s;
  s ← literal "T" s;
  '(hour, s) ← field 0 23 s;
  s ← literal ":" s;
  '(minute, s) ← field 0 59 s;
  s ← literal ":" s;
  '(second, s) ← field 0 61 s;
  s ← literal "Z" s;
  match s with
  | EmptyString => make year month day hour minute second
  | _ => None
  end.

End Datetime.

(** ** Release fetcher: [GitHubClient] *)

Module GitHub.

Import Datetime.

(** A raw release is the dict decoded from the response. *)
Abbreviation release := (gmap string pyval).

Record request := Request {
  req_url : string;
  req_headers : list (string * string)
}.

(** What the endpoint answers: a status, and what [resp.json()] gives. *)
Record response := Response {
  status : Z;
  json : outcome (list release)
}.

(** [session.get] answers or raises. *)
Definition server := request -> outcome response.

Record GitHubClient := {
  username : string;
  repo : string;
  api_url : string;
  headers : list (string * string)
}.

(** [GitHubClient.__init__] *)
Definition new (username repo : string) : GitHubClient :=
  {| username := username;
     repo := repo;
     api_url := "https://api.github.com/repos/" +:+ username +:+ "/" +:+ repo +:+ "/releases";
     headers := [("Accept", "application/vnd.github+json")] |}.

Definition per_page : Z := 100.

(** [f"{self.api_url}?page={page}&per_page={per_page}"] *)
Definition page_url (self : GitHubClient) (page : Z) : string :=
  api_url self +:+ "?page=" +:+ str_of_int page +:+ "&per_page=" +:+ str_of_int per_page.

Definition page_request (self : GitHubClient) (page : Z) : request :=
  Request (page_url self page) (headers self).

(** The page numbers [first], [first + 1], ..., [count] of them. *)
Fixpoint page_numbers (first : Z) (count : nat) : list Z :=
  match count with
  | O => []
  | S count' => first :: page_numbers (first + 1) count'
  end.

(** Page [p] is answered with status 200 and the items [data]. *)
Definition serves (srv : server) (self : GitHubClient) (p : Z)
    (data : list release) : Prop :=
  srv (page_request self p) = Ok (Response 200 (Ok data)).

(** The run of [fetch_all_releases]: what it returns or raises, and the
    requests it issued, in order. *)
Record fetched := Fetched {
  returned : outcome (list release);
  requests : list request
}.

(** The [while True] loop, entered with the current [page] and [results]
    and the requests issued so far. *)
Fixpoint fetch_loop (srv : server) (self : GitHubClient) (fuel : nat)
    (page : Z) (results : list release) (issued : list request)
  : option fetched :=
  match fuel with
  | O => None
  | S fuel' =>
      let rq := page_request self page in
      let issued := issued ++ [rq] in
      match srv rq with
      | Raise e => Some (Fetched (Raise e) issued)
      | Ok resp =>
          if negb (status resp =? 200) then Some (Fetched (Ok results) issued)
          else
            match json resp with
            | Raise e => Some (Fetched (Raise e) issued)
            | Ok data =>
                match data with
                | [] => Some (Fetched (Ok results) issued)
                | _ :: _ =>
                    let results := results ++ data in
                    if Z.of_nat (length data) <? per_page
                    then Some (Fetched (Ok results) issued)
                    else fetch_loop srv self fuel' (page + 1) results issued
                end
            end
      end
  end.

Definition fetch_all_releases (srv : server) (self : GitHubClient) (fuel : nat)
  : option fetched :=
  fetch_loop srv self fuel 1 [] [].

(** The dict literal built for a release that is kept. *)
Record filtered_release := Filtered {
  time : pyval;
  version : pyval;
  description : pyval
}.

Section Recent.

(** [datetime.datetime.strptime(_, "%Y-%m-%dT%H:%M:%SZ")] on a [str];
    [None] when it raises [ValueError]. *)
Variable strptime : string -> option datetime.

(** The call on any value: only a [str] is accepted. *)
Definition strptime_val (v : pyval) : outcome datetime :=
  match v with
  | PStr s =>
      match strptime s with
      | Some t => Ok t
      | None => Raise (Exn ValueError "time data does not match format")
      end
  | _ => Raise (Exn TypeError "strptime() argument 1 must be str")
  end.

(** The [for release in releases] loop, entered with [filtered_releases]. *)
Fixpoint filter_loop (cutoff : datetime) (releases : list release)
    (filtered_releases : list filtered_release) : list filtered_release :=
  match releases with
  | [] => filtered_releases
  | release :: rest =>
      let published_str := dict_get release "published_at" in
      if negb (truthy published_str) then
        filter_loop cutoff rest filtered_releases
      else
        match strptime_val published_str with
        | Raise e =>
            (* every exception of [strptime_val] is an [Exception] *)
            filter_loop cutoff rest filtered_releases
        | Ok published_at =>
            if cutoff <=? published_at then
              filter_loop cutoff rest
                (filtered_releases ++
                   [Filtered published_str (dict_get release "tag_name")
                      (dict_get release "body")])
            else filter_loop cutoff rest filtered_releases
        end
  end.

(** The claim's words, to compare with the loop: a release is recent when
    its [published_at] is a string that parses to a time at or after the
    cutoff, and a recent release is projected to its three fields. *)
Definition recent (cutoff : datetime) (r : release) : bool :=
  match r !! "published_at" with
  | Some (PStr s) =>
      match strptime s with
      | Some t => cutoff <=? t
      | None => false
      end
  | _ => false
  end.

Definition project (r : release) : filtered_release :=
  Filtered (dict_get r "published_at") (dict_get r "tag_name") (dict_get r "body").

(** [now] is what [datetime.datetime.utcnow()] gives after the fetch. *)
Definition get_recent_releases (srv : server) (self : GitHubClient)
    (fuel : nat) (now : datetime) (n_days : Z)
  : option (outcome (list filtered_release)) :=
  match fetch_all_releases srv self fuel with
  | None => None
  | Some run =>
      Some (bind (returned run) (fun releases =>
            bind (timedelta_days n_days) (fun delta =>
            bind (sub now delta) (fun cutoff =>
            Ok (filter_loop cutoff releases [])))))
  end.

End Recent.

End GitHub.

(** ** Summarizer clients *)

Module Gpt.

(** The two concrete classes. *)
Inductive backend_class := OpenAI | ZhipuAI.

(** The fields the constructors set; [model] is set by [ZhipuAIClient]
    only, and is [Some] on every client that constructor builds. *)
Record BaseGPTClient := {
  cls : backend_class;
  api_key : string;
  provider : string;
  model : option string
}.

(** [OpenAIClient.__init__]; the library's client object is left out. *)
Definition OpenAIClient (api_key : string) : BaseGPTClient :=
  {| cls := OpenAI; api_key := api_key; provider := "openai"; model := None |}.

(** [ZhipuAIClient.__init__] with its [model] argument given. *)
Definition ZhipuAIClient (api_key model : string) : BaseGPTClient :=
  {| cls := ZhipuAI; api_key := api_key; provider := "zhipuai"; model := Some model |}.

(** [BaseGPTClient.generate_prompt]; neither subclass overrides it. *)
Definition generate_prompt (self : BaseGPTClient) (releases : string)
    (n_days : Z) (language : string) : string :=
  "Please extract and summarize the important revision content, version number, "
  +:+ "and release time from the following GitHub releases JSON data for the past "
  +:+ str_of_int n_days +:+ " days. "
  +:+ "Provide a concise summary in " +:+ language +:+ "." +:+ nl +:+ nl
  +:+ "Data:" +:+ nl +:+ releases.

(** *** The backend *)

Record message := Message { role : string; content : string }.

(** The keyword arguments of [chat.completions.create]; [temperature] is
    [None] when the call does not pass it. *)
Record chat_request := ChatRequest {
  rq_model : string;
  rq_messages : list message;
  rq_stream : bool;
  rq_temperature : option Q
}.

(** [chunk.choices[0].delta.content] is read through these. *)
Record delta := Delta { delta_content : pyval }.
Record choice := Choice { choice_delta : delta }.
Record chunk := Chunk { choices : list choice }.

(** What iterating the response gives: a chunk and the rest, the end, or
    an exception. *)
Inductive response :=
| Chunks (c : chunk) (rest : response)
| Done
| Broken (e : exn).

(** [chat.completions.create] returns a response or raises. *)
Definition backend := chat_request -> outcome response.

(** *** Generators

    A run of a generator to its end: the requests it sent, the fragments it
    yielded in order, and how it ended: [None] when it returned, [Some e]
    when [e] reached the caller. *)
Record run := Run {
  sent : list chat_request;
  yielded : list pyval;
  raised : option exn
}.

(** [chunk.choices[0].delta.content] *)
Definition first_content (c : chunk) : outcome pyval :=
  match choices c with
  | [] => Raise (Exn IndexError "list index out of range")
  | ch :: _ => Ok (delta_content (choice_delta ch))
  end.

(** [for chunk in response: yield chunk.choices[0].delta.content or ""] *)
Fixpoint iterate (r : response) : list pyval * option exn :=
  match r with
  | Done => ([], None)
  | Broken e => ([], Some e)
  | Chunks c rest =>
      match first_content c with
      | Raise e => ([], Some e)
      | Ok v =>
          let '(ys, fin) := iterate rest in
          (py_or v (PStr "") :: ys, fin)
      end
  end.

(** The body of a [stream_summary]: [try], the call of [create] with the
    arguments [rq], the loop over the response; [except Exception as e]
    yields [h e]. *)
Definition try_stream (be : backend) (rq : chat_request) (h : exn -> pyval) : run :=
  let '(ys, fin) :=
    match be rq with
    | Raise e => ([], Some e)
    | Ok r => iterate r
    end in
  match fin with
  | None => Run [rq] ys None
  | Some e =>
      if is_Exception e then Run [rq] (ys ++ [h e]) None
      else Run [rq] ys (Some e)
  end.

(** [OpenAIClient.stream_summary] *)
Definition OpenAIClient_stream_summary (self : BaseGPTClient) (be : backend)
    (releases : string) (n_days : Z) (language : string) : run :=
  let prompt := generate_prompt self releases n_days language in
  let messages :=
    [Message "system" "You are a seasoned software engineer.";
     Message "user" prompt] in
  try_stream be (ChatRequest "gpt-4o" messages true (Some 0%Q))
    (fun e => PStr (nl +:+ "Error calling OpenAI API: " +:+ exn_str e)).

(** [ZhipuAIClient.stream_summary] *)
Definition ZhipuAIClient_stream_summary (self : BaseGPTClient) (be : backend)
    (releases : string) (n_days : Z) (language : string) : run :=
  let prompt := generate_prompt self releases n_days language in
  let messages :=
    [Message "system"
       "You are a knowledgeable assistant that provides professional and insightful advice.";
     Message "user" prompt] in
  try_stream be (ChatRequest (default "" (model self)) messages true None)
    (fun e => PStr (nl +:+ "Error calling ZhipuAI API: " +:+ exn_str e)).

(** *** How a response can go

    [breaks r vs e]: iterating [r] delivers chunks whose first choices hold
    the contents [vs], then fails with [e], raised either by the iteration
    itself or by reading a chunk that has no choice. *)
Inductive breaks : response -> list pyval -> exn -> Prop :=
| breaks_iter e : breaks (Broken e) [] e
| breaks_chunk c rest e :
    first_content c = Raise e -> breaks (Chunks c rest) [] e
| breaks_later c v rest vs e :
    first_content c = Ok v -> breaks rest vs e ->
    breaks (Chunks c rest) (v :: vs) e.

(** [fails o vs e]: the call of [create] answers [o], which fails with [e]
    after the contents [vs]: at once when [create] itself raises. *)
Inductive fails : outcome response -> list pyval -> exn -> Prop :=
| fails_create e : fails (Raise e) [] e
| fails_stream r vs e : breaks r vs e -> fails (Ok r) vs e.

(** [completes r vs]: iterating [r] delivers chunks with the contents [vs]
    and ends. *)
Inductive completes : response -> list pyval -> Prop :=
| completes_done : completes Done []
| completes_chunk c v rest vs :
    first_content c = Ok v -> completes rest vs ->
    completes (Chunks c rest) (v :: vs).

(** The response that delivers the chunks [cs] and goes on as [r]. *)
Definition chunks_then (cs : list chunk) (r : response) : response :=
  foldr Chunks r cs.

(** A chunk whose only choice holds the content [v]. *)
Definition chunk_of (v : pyval) : chunk := Chunk [Choice (Delta v)].

(** The text a content of type [Optional[str]] stands for. *)
Definition text_of (v : pyval) : string :=
  match v with
  | PStr s => s
  | _ => ""
  end.

(** The loop of [main] over the fragments: [summary_text += chunk], which
    raises [TypeError] on a fragment that is no [str]. *)
Fixpoint accumulate (summary_text : string) (fragments : list pyval) : outcome string :=
  match fragments with
  | [] => Ok summary_text
  | PStr s :: rest => accumulate (summary_text +:+ s) rest
  | _ :: _ => Raise (Exn TypeError "can only concatenate str to str")
  end.

(** The user prompts of the requests a run sent. *)
Definition user_prompts (r : run) : list string :=
  flat_map (fun rq =>
    flat_map (fun m => if String.eqb (role m) "user" then [content m] else [])
      (rq_messages rq)) (sent r).

(** The method call [self.stream_summary(...)], by the class of [self]. *)
Definition stream_summary (self : BaseGPTClient) : backend -> string -> Z -> string -> run :=
  match cls self with
  | OpenAI => OpenAIClient_stream_summary self
  | ZhipuAI => ZhipuAIClient_stream_summary self
  end.

(** The name the error fragment carries. *)
Definition display_name (c : backend_class) : string :=
  match c with
  | OpenAI => "OpenAI"
  | ZhipuAI => "ZhipuAI"
  end.

Definition create_gpt_client (provider api_key model : string) : outcome BaseGPTClient :=
  let provider := lower provider in
  if String.eqb provider "openai" then Ok (OpenAIClient api_key)
  else if String.eqb provider "zhipuai" then
    let model_to_use := if negb (String.eqb model "") then model else "glm-4-flash" in
    Ok (ZhipuAIClient api_key model_to_use)
  else Raise (Exn ValueError ("Unsupported GPT provider: " +:+ provider)).

End Gpt.

(** ** The repository list of [app.py] *)

Module App.

(** The decoded content of [data/repos.json]: session id to repositories. *)
Abbreviation repos_data := (gmap string (list string)).

(** The part of the file system the functions touch: whether the [data]
    directory exists, the content of [data/repos.json] when the file
    exists, and the contents written to that file so far, oldest first. *)
Record fs := Fs {
  dir_exists : bool;
  repos_file : option repos_data;
  written : list repos_data
}.

(** A small state monad over the file system. *)
Definition io (A : Type) := fs -> A * fs.

Definition ret {A} (a : A) : io A := fun st => (a, st).

Definition io_bind {A B} (m : io A) (k : A -> io B) : io B :=
  fun st => let '(a, st') := m st in k a st'.

Declare Scope io_scope.
Delimit Scope io_scope with io.
Notation "x <-- m ;; k" := (io_bind m (fun x => k))
  (at level 100, m at next level, right associativity) : io_scope.
Notation "m ;;; k" := (io_bind m (fun _ => k))
  (at level 100, right associativity) : io_scope.
Local Open Scope io_scope.

(** [os.path.exists(DATA_DIR)] *)
Definition data_dir_exists : io bool := fun st => (dir_exists st, st).

(** [os.makedirs(DATA_DIR)] *)
Definition makedirs : io unit :=
  fun st => (tt, Fs true (repos_file st) (written st)).

(** [os.path.exists(REPOS_FILE)] *)
Definition repos_file_exists : io bool :=
  fun st => (match repos_file st with Some _ => true | None => false end, st).

(** [with open(REPOS_FILE, "w") as f: json.dump(data, f)] *)
Definition dump (data : repos_data) : io unit :=
  fun st => (tt, Fs (dir_exists st) (Some data) (written st ++ [data])).

(** [with open(REPOS_FILE, "r") as f: data = json.load(f)]; the functions
    open the file only after [ensure_data_file]. *)
Definition load : io repos_data :=
  fun st => (default ∅ (repos_file st), st).

Definition ensure_data_file : io unit :=
  d <-- data_dir_exists ;;
  (if negb d then makedirs else ret tt) ;;;
  f <-- repos_file_exists ;;
  if negb f then dump ∅ else ret tt.

Definition read_repos (session_id : string) : io (list string) :=
  ensure_data_file ;;;
  data <-- load ;;
  ret (default [] (data !! session_id)).

(** [x in l] on a list of [str] *)
Definition str_in (x : string) (l : list string) : bool :=
  existsb (String.eqb x) l.

(** [l.remove(x)]: the first occurrence goes; the program calls it only
    when [x in l]. *)
Fixpoint list_remove (x : string) (l : list string) : list string :=
  match l with
  | [] => []
  | y :: l' => if String.eqb y x then l' else y :: list_remove x l'
  end.

(** The repositories stored for a session, as [read_repos] finds them. *)
Definition stored (st : fs) (session_id : string) : list string :=
  default [] (default ∅ (repos_file st) !! session_id).

Definition add_repo (session_id repo_str : string) : io (outcome (bool * string)) :=
  match Repo.parse_repo_input repo_str with
  | Raise e =>
      match exn_cls e with
      | ValueError => ret (Ok (false, "Invalid repository format."))
      | _ => ret (Raise e)
      end
  | Ok (username, repo) =>
      ensure_data_file ;;;
      data <-- load ;;
      let repos := default [] (data !! session_id) in
      let new_repo := username +:+ "/" +:+ repo in
      if str_in new_repo repos then ret (Ok (false, "Repository already exists."))
      else
        let repos := repos ++ [new_repo] in
        let data := <[session_id := repos]> data in
        dump data ;;;
        ret (Ok (true, "Repository added."))
  end.

Definition remove_repo (session_id repo_str : string) : io (bool * string) :=
  ensure_data_file ;;;
  data <-- load ;;
  let repos := default [] (data !! session_id) in
  if negb (str_in repo_str repos) then ret (false, "Repository not found.")
  else
    let repos := list_remove repo_str repos in
    let data := <[session_id := repos]> data in
    dump data ;;;
    ret (true, "Repository removed.").

(** A call that changes the repository list, and a run of such calls;
    only the file system they leave is kept. *)
Inductive op :=
| Add (session_id repo_str : string)
| Remove (session_id repo_str : string).

Definition apply_op (st : fs) (o : op) : fs :=
  match o with
  | Add session_id repo_str => snd (add_repo session_id repo_str st)
  | Remove session_id repo_str => snd (remove_repo session_id repo_str st)
  end.

Definition apply_ops (ops : list op) (st : fs) : fs :=
  fold_left apply_op ops st.

End App.

(** ** The summarize action of [main]

    The block of [main] under the "Summarize All Repositories" button.
    The calls on the Streamlit module are kept as a log of events, in the
    order they are made, together with the calls of [create] on the
    backend. *)

Module Main.

Import Datetime GitHub Gpt App.

Inductive event :=
| StMarkdown (body : string)
| StError (body : string)
| StInfo (body : string)
| StEmpty
| PlaceholderMarkdown (body : string)
| ChatCreate (rq : chat_request).

(** [p in s] for two strings *)
Fixpoint str_contains (p s : string) : bool :=
  startswith p s
  || match s with
     | EmptyString => false
     | String _ s' => str_contains p s'
     end.

(** [st.markdown(f"#### Repository: {repo_str}")] *)
Definition header (repo_str : string) : event :=
  StMarkdown ("#### Repository: " +:+ repo_str).

Definition is_header (e : event) : bool :=
  match e with
  | StMarkdown body => startswith "#### Repository: " body
  | _ => false
  end.

Definition chat_requests (evs : list event) : list chat_request :=
  flat_map (fun e => match e with ChatCreate rq => [rq] | _ => [] end) evs.

(** What the placeholder shows, one after the other, when the texts are
    added to [summary_text]. *)
Fixpoint displays (summary_text : string) (texts : list string) : list event :=
  match texts with
  | [] => []
  | t :: rest =>
      PlaceholderMarkdown (summary_text +:+ t) :: displays (summary_text +:+ t) rest
  end.

(** The body of the [async for]: [summary_text += chunk] and
    [placeholder.markdown(summary_text)] for each fragment; adding a
    fragment that is no [str] raises [TypeError]. *)
Fixpoint consume (summary_text : string) (fragments : list pyval)
  : list event * option exn :=
  match fragments with
  | [] => ([], None)
  | PStr s :: rest =>
      let summary_text := summary_text +:+ s in
      let '(evs, fin) := consume summary_text rest in
      (PlaceholderMarkdown summary_text :: evs, fin)
  | _ :: _ => ([], Some (Exn TypeError "can only concatenate str to str"))
  end.

Section Summarize.

(** The library parser, as in [GitHub]. *)
Variable strptime : string -> option datetime.

(** [json.dumps(releases, ensure_ascii=False, indent=2)] *)
Variable dumps : list filtered_release -> string.

Variable srv : server.
Variable be : backend.

(** One turn of [for repo_str in repos]: the events it logs, and the
    exception that leaves [main], if any.  [None]: the fetch ran out of
    fuel. *)
Definition summarize_repo (gpt_client : BaseGPTClient) (fuel : nat)
    (now : datetime) (n_days : Z) (language repo_str : string)
  : option (list event * option exn) :=
  let log := [header repo_str] in
  match Repo.parse_repo_input repo_str with
  | Raise e =>
      match exn_cls e with
      | ValueError =>
          Some (log ++ [StError ("Invalid repository format for " +:+ repo_str
                                   +:+ ": " +:+ exn_str e)], None)
      | _ => Some (log, Some e)
      end
  | Ok (username, repo) =>
      let log := log ++ [StInfo ("Fetching GitHub releases for " +:+ repo_str +:+ "...")] in
      match get_recent_releases strptime srv (GitHub.new username repo) fuel now n_days with
      | None => None
      | Some (Raise e) =>
          if is_Exception e then
            if str_contains "403" (exn_str e) then
              Some (log ++ [StError "GitHub API rate limit exceeded (403). Skipping summarization for this repository."], None)
            else
              Some (log ++ [StError ("Error fetching data for " +:+ repo_str
                                       +:+ ": " +:+ exn_str e)], None)
          else Some (log, Some e)
      | Some (Ok releases) =>
          match releases with
          | [] =>
              Some (log ++ [StError "No releases found or GitHub API returned 403. Skipping summarization for this repository."], None)
          | _ :: _ =>
              let log := log ++ [StInfo "Generating summary from GPT..."; StEmpty] in
              let run := stream_summary gpt_client be (dumps releases) n_days language in
              let log := log ++ map ChatCreate (sent run) in
              match consume "" (yielded run) with
              | (evs, Some e) => Some (log ++ evs, Some e)
              | (evs, None) =>
                  match raised run with
                  | Some e => Some (log ++ evs, Some e)
                  | None => Some (log ++ evs ++ [StMarkdown "---"], None)
                  end
              end
          end
      end
  end.

(** The [for] loop; [clock i] is what [utcnow()] gives in turn [i]. *)
Fixpoint summarize_loop (gpt_client : BaseGPTClient) (fuel : nat)
    (clock : nat -> datetime) (n_days : Z) (language : string)
    (i : nat) (repos : list string) : option (list event * option exn) :=
  match repos with
  | [] => Some ([], None)
  | repo_str :: rest =>
      match summarize_repo gpt_client fuel (clock i) n_days language repo_str with
      | None => None
      | Some (evs, Some e) => Some (evs, Some e)
      | Some (evs, None) =>
          match summarize_loop gpt_client fuel clock n_days language (S i) rest with
          | None => None
          | Some (evs', fin) => Some (evs ++ evs', fin)
          end
      end
  end.

(** The whole block, on the file system [st]. *)
Definition summarize_all (session_id gpt_provider gpt_api_key : string)
    (fuel : nat) (clock : nat -> datetime) (n_days : Z) (language : string)
    (st : fs) : option (list event * option exn) * fs :=
  let '(repos, st) := read_repos session_id st in
  match repos with
  | [] => (Some ([StError "No repositories saved in file."], None), st)
  | _ :: _ =>
      match create_gpt_client gpt_provider gpt_api_key "" with
      | Raise e =>
          if is_Exception e
          then (Some ([StError ("Error creating GPT client: " +:+ exn_str e)], None), st)
          else (Some ([], Some e), st)
      | Ok gpt_client =>
          (summarize_loop gpt_client fuel clock n_days language 0 repos, st)
      end
  end.

End Summarize.

(** A backend is polite when it raises nothing but [Exception]s and every
    content it delivers is a string or [None]. *)
Fixpoint polite_response (r : response) : Prop :=
  match r with
  | Done => True
  | Broken e => is_Exception e = true
  | Chunks c rest =>
      match first_content c with
      | Raise _ => True
      | Ok v => (v = PNone \/ exists s, v = PStr s) /\ polite_response rest
      end
  end.

Definition polite_backend (be : backend) : Prop :=
  forall rq,
    match be rq with
    | Raise e => is_Exception e = true
    | Ok r => polite_response r
    end.

(** Page [p] of the listing of [self] is full: it comes with status 200
    and at least [per_page] items, so the loop asks for the next one. *)
Definition full_page_at (srv : server) (self : GitHubClient) (p : Z) : Prop :=
  exists data, serves srv self p data /\ per_page <= Z.of_nat (length data).

(** Every listing has, among its first [fuel] pages, one that is not
    full. *)
Definition listings_end (srv : server) (fuel : nat) : Prop :=
  forall self, exists p : nat,
    (1 <= p <= fuel)%nat /\ ~ full_page_at srv self (Z.of_nat p).

(** A server is polite when it raises nothing but [Exception]s. *)
Definition polite_server (srv : server) : Prop :=
  forall rq,
    match srv rq with
    | Raise e => is_Exception e = true
    | Ok resp =>
        match json resp with
        | Raise e => is_Exception e = true
        | Ok _ => True
        end
    end.

End Main.

(** ** Concrete scenarios *)

Module Scenario.

Import GitHub.

Definition raw (published_at tag_name body : string) : release :=
  {[ "published_at" := PStr published_at;
     "tag_name" := PStr tag_name;
     "body" := PStr body ]}.

Definition v1 : release := raw "2024-01-10T00:00:00Z" "v1" "fix".
Definition v0 : release := raw "2023-01-01T00:00:00Z" "v0" "init".

Definition octocat : GitHubClient := GitHub.new "octo" "cat".

Definition full_page : list release := replicate 100 v0.

(** Page 1 is full, page 2 holds one release, later pages are empty. *)
Definition two_pages : server := fun rq =>
  if String.eqb (req_url rq) (page_url octocat 1)
  then Ok (Response 200 (Ok full_page))
  else if String.eqb (req_url rq) (page_url octocat 2)
  then Ok (Response 200 (Ok [v1]))
  else Ok (Response 200 (Ok [])).

(** Page 1 is full, then the rate limit answers 403; the body of such an
    answer is never decoded. *)
Definition rate_limited : server := fun rq =>
  if String.eqb (req_url rq) (page_url octocat 1)
  then Ok (Response 200 (Ok full_page))
  else Ok (Response 403 (Ok [])).

(** One page with the two releases of the worked example. *)
Definition one_page : server := fun _ => Ok (Response 200 (Ok [v1; v0])).

(** 2024-01-12T00:00:00 *)
Definition now : Datetime.datetime := 738896 * Datetime.us_per_day.

(** A backend whose stream delivers two chunks, the second without
    content, and then breaks. *)
Definition flaky : Gpt.backend := fun _ =>
  Ok (Gpt.chunks_then [Gpt.chunk_of (PStr "Release "); Gpt.chunk_of PNone]
        (Gpt.Broken (Exn (OtherException "APIConnectionError") "Connection error."))).

(** A backend whose stream delivers three chunks and ends. *)
Definition steady : Gpt.backend := fun _ =>
  Ok (Gpt.chunks_then
        [Gpt.chunk_of (PStr "v1 "); Gpt.chunk_of PNone; Gpt.chunk_of (PStr "fixes")]
        Gpt.Done).

(** Every page is full: the listing never ends. *)
Definition endless : server := fun _ => Ok (Response 200 (Ok full_page)).

(** Page 1 is full, then the connection drops. *)
Definition dropped : server := fun rq =>
  if String.eqb (req_url rq) (page_url octocat 1)
  then Ok (Response 200 (Ok full_page))
  else Raise (Exn (OtherException "ClientConnectionError") "Connection reset").

(** [json.dumps] of the worked example's result, one line per release. *)
Definition dumps_versions (l : list filtered_release) : string :=
  join (map (fun f => Gpt.text_of (version f) +:+ nl) l).

(** The repository file of session [s1]: a broken entry, a repository
    whose releases cannot be fetched, and a repository that has one. *)
Definition three_repos : App.fs :=
  App.Fs true (Some {[ "s1" := ["nonsense"; "octo/none"; "octo/cat"] ]}) [].

(** The releases of [octo/cat] come on one page; [octo/none] is refused. *)
Definition github : server := fun rq =>
  if String.eqb (req_url rq) (page_url octocat 1)
  then Ok (Response 200 (Ok [v1; v0]))
  else Ok (Response 403 (Ok [])).

End Scenario.

(** * Properties *)

(** ** Strings and the matcher *)

(** [String.append] does not unfold under [simpl]; push it inwards by
    hand. *)
Ltac push_app :=
  rewrite ?(fun c s t => eq_refl : String c s +:+ t = String c (s +:+ t)),
          ?(fun t => eq_refl : "" +:+ t = t); simpl.

Section StringFacts.

Lemma ascii_eqb_refl (c : ascii) : ascii_eqb c c = true.
Proof. unfold ascii_eqb. apply Ascii.eqb_refl. Qed.

Lemma ascii_eqb_true (a b : ascii) : ascii_eqb a b = true -> a = b.
Proof. unfold ascii_eqb. apply Ascii.eqb_eq. Qed.

Lemma ascii_eqb_false (a b : ascii) : ascii_eqb a b = false -> a <> b.
Proof. unfold ascii_eqb. apply Ascii.eqb_neq. Qed.

Lemma app_String (c : ascii) (s t : string) :
  String c s +:+ t = String c (s +:+ t).
Proof. reflexivity. Qed.

Lemma app_Empty (t : string) : "" +:+ t = t.
Proof. reflexivity. Qed.

Lemma app_empty_r (s : string) : s +:+ "" = s.
Proof. induction s as [|c s IH]; push_app; [reflexivity | now rewrite IH]. Qed.

Lemma app_assoc_str (s t u : string) : (s +:+ t) +:+ u = s +:+ t +:+ u.
Proof. induction s as [|c s IH]; push_app; [reflexivity | now rewrite IH]. Qed.

Lemma length_app_str (s t : string) :
  String.length (s +:+ t) = (String.length s + String.length t)%nat.
Proof. induction s as [|c s IH]; push_app; [reflexivity | now rewrite IH]. Qed.

Lemma app_inv_tail_str (a b s : string) : a +:+ s = b +:+ s -> a = b.
Proof.
  revert b. induction a as [|c a IH]; intros [|d b] H;
    rewrite ?app_Empty, ?app_String in H.
  - reflexivity.
  - apply (f_equal String.length) in H.
    simpl in H. rewrite length_app_str in H. lia.
  - apply (f_equal String.length) in H.
    simpl in H. rewrite length_app_str in H. lia.
  - injection H as -> H. f_equal. now apply IH.
Qed.

Lemma startswith_app (p s : string) : startswith p (p +:+ s) = true.
Proof.
  induction p as [|c p IH]; push_app; [reflexivity |].
  now rewrite ascii_eqb_refl, IH.
Qed.

Lemma startswith_inv (p s : string) :
  startswith p s = true -> exists rest, s = p +:+ rest.
Proof.
  revert s. induction p as [|c p IH]; intros s H; simpl in *.
  - now exists s.
  - destruct s as [|d s]; [discriminate |].
    apply andb_prop in H as [Hc Hp].
    apply ascii_eqb_true in Hc. subst d.
    destruct (IH _ Hp) as [rest ->]. now exists rest.
Qed.

Lemma contains_app (c : ascii) (s t : string) :
  contains c (s +:+ t) = contains c s || contains c t.
Proof.
  induction s as [|d s IH]; push_app; [reflexivity |].
  now rewrite IH, orb_assoc.
Qed.

Lemma split1_cut (c : ascii) (o rest : string) :
  contains c o = false -> split1 c (o +:+ String c rest) = [o; rest].
Proof.
  induction o as [|d o IH]; push_app; intros H.
  - now rewrite ascii_eqb_refl.
  - simpl in H. apply orb_false_elim in H as [Hd Ho].
    rewrite Hd, (IH Ho). reflexivity.
Qed.

Lemma re_match_lits (p : string) (q : list atom) (s : string) :
  re_match (lits p ++ q) (p +:+ s) = re_match q s.
Proof.
  induction p as [|c p IH]; push_app; [reflexivity |].
  now rewrite ascii_eqb_refl.
Qed.

Lemma span_app (c : ascii) (s : string) :
  s = fst (span c s) +:+ snd (span c s).
Proof.
  induction s as [|d s IH]; simpl; [reflexivity |].
  destruct (ascii_eqb d c); [reflexivity |].
  destruct (span c s) as [g rest]; simpl in *. push_app. now rewrite <- IH.
Qed.

Lemma span_clean (c : ascii) (s : string) : contains c (fst (span c s)) = false.
Proof.
  induction s as [|d s IH]; simpl; [reflexivity |].
  destruct (ascii_eqb d c) eqn:E; [reflexivity |].
  destruct (span c s) as [g rest]; simpl in *. now rewrite E, IH.
Qed.

Lemma span_rest (c : ascii) (s : string) :
  snd (span c s) = "" \/ exists t, snd (span c s) = String c t.
Proof.
  induction s as [|d s IH]; simpl; [now left |].
  destruct (ascii_eqb d c) eqn:E.
  - right. apply ascii_eqb_true in E. subst. now exists s.
  - destruct (span c s) as [g rest]; simpl in *. exact IH.
Qed.

Lemma span_unique (c : ascii) (g rest : string) :
  contains c g = false ->
  (rest = "" \/ exists t, rest = String c t) ->
  span c (g +:+ rest) = (g, rest).
Proof.
  intros Hg Hrest. induction g as [|d g IH]; push_app.
  - destruct Hrest as [-> | [t ->]]; simpl; [reflexivity |].
    now rewrite ascii_eqb_refl.
  - simpl in Hg. apply orb_false_elim in Hg as [Hd Hg].
    rewrite Hd, (IH Hg). reflexivity.
Qed.

(** When the continuation refuses every rest that begins with a character
    other than [c], the greedy group can only end at the longest run. *)
Lemma greedy_span {R} (c : ascii) (k : string -> string -> option R) (s : string) :
  (forall g d rest, ascii_eqb d c = false -> k g (String d rest) = None) ->
  greedy c k s =
    match fst (span c s) with
    | EmptyString => None
    | g => k g (snd (span c s))
    end.
Proof.
  revert k. induction s as [|d s IH]; intros k Hk; simpl; [reflexivity |].
  destruct (ascii_eqb d c) eqn:E; [reflexivity |].
  rewrite IH by (intros; now apply Hk).
  destruct s as [|d' s']; simpl; [reflexivity |].
  destruct (ascii_eqb d' c) eqn:E'; simpl; [reflexivity |].
  destruct (span c s') as [g rest]; simpl.
  destruct (k (String d (String d' g)) rest) eqn:K; [reflexivity |].
  now apply Hk.
Qed.

(** When the continuation accepts everything, the group takes the longest
    run. *)
Lemma greedy_last {R} (c : ascii) (k : string -> string -> option R) (s : string) :
  (forall g rest, is_Some (k g rest)) ->
  greedy c k s =
    match fst (span c s) with
    | EmptyString => None
    | g => k g (snd (span c s))
    end.
Proof.
  revert k. induction s as [|d s IH]; intros k Hk; simpl; [reflexivity |].
  destruct (ascii_eqb d c) eqn:E; [reflexivity |].
  rewrite IH by (intros; apply Hk).
  destruct s as [|d' s']; simpl; [reflexivity |].
  destruct (ascii_eqb d' c) eqn:E'; simpl; [reflexivity |].
  destruct (span c s') as [g rest]; simpl.
  destruct (Hk (String d (String d' g)) rest) as [r ->]. reflexivity.
Qed.

End StringFacts.

(** ** [parse_repo_input] *)

Section ParseRepoInput.

Import Repo.

Local Abbreviation prefix := url_prefix.
Local Abbreviation slash := "/"%char.

(** What the pattern finds after the literal prefix: the run up to the
    first [/], which must be non-empty and followed by [/], then the run
    up to the next [/] or the end, which must be non-empty. *)
Lemma re_match_pattern (rest : string) :
  re_match pattern (prefix +:+ rest) =
    match fst (span slash rest), snd (span slash rest) with
    | EmptyString, _ => None
    | o, String c rest2 =>
        if ascii_eqb slash c then
          match fst (span slash rest2) with
          | EmptyString => None
          | n => Some [o; n]
          end
        else None
    | _, EmptyString => None
    end.
Proof.
  unfold pattern. rewrite re_match_lits. simpl re_match.
  rewrite greedy_span.
  - destruct (fst (span slash rest)) as [|c0 o]; [reflexivity |].
    destruct (snd (span slash rest)) as [|c rest2]; [reflexivity |].
    destruct (ascii_eqb slash c); [| reflexivity].
    rewrite greedy_last by (intros; simpl; eauto).
    destruct (fst (span slash rest2)); reflexivity.
  - intros g d r Hd. simpl.
    destruct (ascii_eqb _ d) eqn:E; [| reflexivity].
    apply ascii_eqb_true in E. subst d.
    rewrite ascii_eqb_refl in Hd. discriminate.
Qed.

(** A string [o/n] whose parts hold no [/] does not start with the URL
    prefix. *)
Lemma bare_not_url (o n : string) :
  contains slash o = false -> contains slash n = false ->
  startswith prefix (o +:+ String slash n) = false.
Proof.
  intros Ho Hn. destruct (startswith prefix (o +:+ String slash n)) eqn:E;
    [| reflexivity].
  apply startswith_inv in E as [rest E].
  assert (H : fst (span slash (o +:+ String slash n)) = o).
  { rewrite span_unique; [reflexivity | assumption | right; now eexists]. }
  assert (H2 : snd (span slash (o +:+ String slash n)) = String slash n).
  { rewrite span_unique; [reflexivity | assumption | right; now eexists]. }
  rewrite E in H, H2. unfold url_prefix in H, H2. push_app. simpl in H, H2.
  subst o. simpl in H2. injection H2 as <-. discriminate Hn.
Qed.

Lemma url_has_slash (rest : string) : contains slash (prefix +:+ rest) = true.
Proof. reflexivity. Qed.

(** C3 (amended).  Write [s] for the input stripped of surrounding
    whitespace.  When [s] is [owner/name], or [https://github.com/owner/name]
    followed by nothing or by [/] and further text, with [owner] and [name]
    non-empty and free of [/], the result is exactly [(owner, name)].  When
    [s] holds no [/] the call raises [ValueError].  When [s] starts with
    [https://github.com/] the call either raises [ValueError] or returns
    two non-empty fields free of [/] that [s] spells out after the prefix. *)
Theorem parse_repo_input_forms (input : string) :
  (forall o n, o <> "" -> n <> "" ->
     contains slash o = false -> contains slash n = false ->
     strip input = o +:+ "/" +:+ n ->
     parse_repo_input input = Ok (o, n))
  /\ (forall o n tail, o <> "" -> n <> "" ->
       contains slash o = false -> contains slash n = false ->
       tail = "" \/ (exists t, tail = String slash t) ->
       strip input = prefix +:+ o +:+ "/" +:+ n +:+ tail ->
       parse_repo_input input = Ok (o, n))
  /\ (contains slash (strip input) = false ->
       parse_repo_input input =
         Raise (Exn ValueError "Please enter in username/repo format"))
  /\ (startswith prefix (strip input) = true ->
       parse_repo_input input = Raise (Exn ValueError "Cannot parse repository URL")
       \/ exists o n tail,
            o <> "" /\ n <> "" /\
            contains slash o = false /\ contains slash n = false /\
            (tail = "" \/ exists t, tail = String slash t) /\
            strip input = prefix +:+ o +:+ "/" +:+ n +:+ tail /\
            parse_repo_input input = Ok (o, n)).
Proof.
  unfold parse_repo_input. repeat split.
  - intros o n Ho Hn Co Cn ->.
    change (o +:+ "/" +:+ n) with (o +:+ String slash n).
    rewrite bare_not_url by assumption.
    rewrite contains_app. simpl contains. rewrite orb_true_r.
    simpl negb. now rewrite split1_cut.
  - intros o n tail Ho Hn Co Cn Ht ->.
    rewrite startswith_app, re_match_pattern.
    change (o +:+ "/" +:+ n +:+ tail) with (o +:+ String slash (n +:+ tail)).
    rewrite span_unique; [| assumption | right; now eexists]. simpl fst; simpl snd.
    destruct o as [|c o]; [congruence |].
    rewrite ascii_eqb_refl, span_unique by assumption. simpl fst.
    destruct n; [congruence | reflexivity].
  - intros Hc.
    destruct (startswith prefix (strip input)) eqn:E.
    + apply startswith_inv in E as [rest E].
      rewrite E, url_has_slash in Hc. discriminate.
    + now rewrite Hc.
  - intros Hs. rewrite Hs.
    apply startswith_inv in Hs as [rest E]. rewrite E, re_match_pattern.
    pose proof (span_app slash rest) as Happ.
    pose proof (span_clean slash rest) as Hclean.
    destruct (fst (span slash rest)) as [|c0 o] eqn:Eo; [now left |].
    destruct (snd (span slash rest)) as [|c rest2] eqn:Er; [now left |].
    destruct (ascii_eqb slash c) eqn:Ec; [| now left].
    apply ascii_eqb_true in Ec. subst c.
    pose proof (span_app slash rest2) as Happ2.
    pose proof (span_clean slash rest2) as Hclean2.
    pose proof (span_rest slash rest2) as Hrest2.
    destruct (fst (span slash rest2)) as [|c1 n] eqn:En; [now left |].
    right. exists (String c0 o), (String c1 n), (snd (span slash rest2)).
    repeat split; try assumption; try discriminate.
    rewrite Happ. f_equal.
    change (String c0 o +:+ "/" +:+ String c1 n +:+ (span slash rest2).2)
      with (String c0 o +:+ String slash (String c1 n +:+ (span slash rest2).2)).
    now rewrite <- Happ2.
Qed.

Lemma parse_repo_input_forms_witness :
  parse_repo_input "  octo/cat " = Ok ("octo", "cat")
  /\ parse_repo_input "https://github.com/octo/cat" = Ok ("octo", "cat")
  /\ parse_repo_input "octocat" =
       Raise (Exn ValueError "Please enter in username/repo format").
Proof.
  destruct (parse_repo_input_forms "  octo/cat ") as (H1 & _).
  destruct (parse_repo_input_forms "https://github.com/octo/cat") as (_ & H2 & _).
  destruct (parse_repo_input_forms "octocat") as (_ & _ & H3 & _).
  split; [| split].
  - apply H1; [discriminate | discriminate | reflexivity | reflexivity | reflexivity].
  - apply (H2 _ _ ""); [discriminate | discriminate | reflexivity | reflexivity
                        | now left | reflexivity].
  - apply H3. reflexivity.
Defined.

(** C3 as stated fails: the call returns [(owner, name)] for strings that
    are neither [owner/name] nor [https://github.com/owner/name]: a URL
    with a further path, and a string with surrounding whitespace. *)
Lemma parse_repo_input_accepts_longer_url :
  parse_repo_input "https://github.com/octo/cat/releases" = Ok ("octo", "cat")
  /\ "https://github.com/octo/cat/releases" <> "octo" +:+ "/" +:+ "cat"
  /\ "https://github.com/octo/cat/releases" <> prefix +:+ "octo" +:+ "/" +:+ "cat"
  /\ parse_repo_input " octo/cat " = Ok ("octo", "cat")
  /\ " octo/cat " <> "octo" +:+ "/" +:+ "cat"
  /\ " octo/cat " <> prefix +:+ "octo" +:+ "/" +:+ "cat".
Proof. repeat split; discriminate. Qed.

End ParseRepoInput.

(** ** [fetch_all_releases] *)

Section Pagination.

Import GitHub.

Variable srv : server.
Variable self : GitHubClient.

Local Abbreviation serves := (GitHub.serves srv self).

Lemma page_numbers_snoc (first : Z) (count : nat) :
  page_numbers first (S count) =
  page_numbers first count ++ [first + Z.of_nat count].
Proof.
  revert first. induction count as [|count IH]; intros first.
  - simpl. now rewrite Z.add_0_r.
  - change (page_numbers first (S (S count)))
      with (first :: page_numbers (first + 1) (S count)).
    rewrite IH. simpl. do 3 f_equal. lia.
Qed.

(** One turn of the loop on a page that is full. *)
Lemma fetch_loop_full (fuel : nat) (page : Z) (data results : list release)
    (issued : list request) :
  serves page data -> per_page <= Z.of_nat (length data) ->
  fetch_loop srv self (S fuel) page results issued =
  fetch_loop srv self fuel (page + 1) (results ++ data)
    (issued ++ [page_request self page]).
Proof.
  unfold serves. intros Hs Hlen. simpl. rewrite Hs. simpl.
  destruct data as [|r data]; [unfold per_page in Hlen; simpl in Hlen; lia |].
  destruct (Z.ltb_spec (Z.of_nat (length (r :: data))) per_page); [lia |].
  reflexivity.
Qed.

(** One turn of the loop on a page that is short or empty. *)
Lemma fetch_loop_short (fuel : nat) (page : Z) (data results : list release)
    (issued : list request) :
  serves page data -> Z.of_nat (length data) < per_page ->
  fetch_loop srv self (S fuel) page results issued =
  Some (Fetched (Ok (results ++ data)) (issued ++ [page_request self page])).
Proof.
  unfold serves. intros Hs Hlen. simpl. rewrite Hs. simpl.
  destruct data as [|r data]; [now rewrite app_nil_r |].
  destruct (Z.ltb_spec (Z.of_nat (length (r :: data))) per_page); [| lia].
  reflexivity.
Qed.

(** One turn of the loop on an answer whose status is not 200. *)
Lemma fetch_loop_refused (fuel : nat) (page st : Z)
    (body : outcome (list release)) (results : list release)
    (issued : list request) :
  srv (page_request self page) = Ok (Response st body) -> st <> 200 ->
  fetch_loop srv self (S fuel) page results issued =
  Some (Fetched (Ok results) (issued ++ [page_request self page])).
Proof.
  intros Hs Hst. simpl. rewrite Hs. simpl.
  destruct (Z.eqb_spec st 200); [contradiction | reflexivity].
Qed.

(** The loop walks through a run of full pages. *)
Lemma fetch_loop_through (full : list (list release)) :
  forall (fuel : nat) (page : Z) (results : list release) (issued : list request),
  (forall (i : nat) data, full !! i = Some data ->
     serves (page + Z.of_nat i) data /\ per_page <= Z.of_nat (length data)) ->
  fetch_loop srv self (length full + fuel) page results issued =
  fetch_loop srv self fuel (page + Z.of_nat (length full))
    (results ++ concat full)
    (issued ++ map (page_request self) (page_numbers page (length full))).
Proof.
  induction full as [|data full IH]; intros fuel page results issued H.
  - simpl. now rewrite Z.add_0_r, !app_nil_r.
  - destruct (H 0%nat data eq_refl) as [Hs Hlen].
    rewrite Z.add_0_r in Hs.
    change (length (data :: full) + fuel)%nat with (S (length full + fuel)).
    rewrite (fetch_loop_full _ _ data) by assumption.
    rewrite IH.
    + cbn [concat page_numbers map length].
      rewrite <- !app_assoc. cbn [app]. f_equal.
      rewrite Nat2Z.inj_succ. lia.
    + intros i d Hi. specialize (H (S i) d Hi).
      rewrite Nat2Z.inj_succ in H.
      replace (page + 1 + Z.of_nat i) with (page + Z.succ (Z.of_nat i)) by lia.
      exact H.
Qed.

(** C2.  When pages 1 to [k] are served with status 200, each of the first
    [k - 1] holding exactly [per_page] items and page [k] holding fewer
    (possibly none), [fetch_all_releases] ends, has issued exactly the
    requests for pages 1, 2, ..., [k], each with [per_page=100], and returns
    the items of all [k] pages in order. *)
Theorem fetch_all_releases_concat (full : list (list release))
    (last : list release) (fuel : nat) :
  (forall (i : nat) data, full !! i = Some data ->
     serves (1 + Z.of_nat i) data /\ Z.of_nat (length data) = per_page) ->
  serves (1 + Z.of_nat (length full)) last ->
  Z.of_nat (length last) < per_page ->
  (length full < fuel)%nat ->
  fetch_all_releases srv self fuel =
    Some (Fetched (Ok (concat (full ++ [last])))
            (map (page_request self) (page_numbers 1 (S (length full)))))
  /\ (forall p, page_request self p =
        Request (api_url self +:+ "?page=" +:+ str_of_int p +:+ "&per_page=100")
                (headers self)).
Proof.
  intros Hfull Hlast Hshort Hfuel. split; [| reflexivity].
  unfold fetch_all_releases.
  replace fuel with (length full + S (fuel - S (length full)))%nat by lia.
  rewrite fetch_loop_through.
  - rewrite (fetch_loop_short _ _ last) by assumption.
    rewrite concat_app, page_numbers_snoc, map_app. simpl.
    now rewrite app_nil_r.
  - intros i data Hi. destruct (Hfull i data Hi) as [Hs Hlen].
    split; [exact Hs | lia].
Qed.

(** C7.  When pages 1 to [k] were served with status 200 and at least
    [per_page] items each, and the request for page [k + 1] is answered
    with a status other than 200, [fetch_all_releases] ends there and
    returns, without raising, the items of the [k] earlier pages.  More
    generally, wherever the loop stands, an answer with a status other
    than 200 ends it with the results accumulated so far. *)
Theorem fetch_all_releases_non_200 (full : list (list release)) (st : Z)
    (body : outcome (list release)) (fuel : nat) :
  (forall (i : nat) data, full !! i = Some data ->
     serves (1 + Z.of_nat i) data /\ per_page <= Z.of_nat (length data)) ->
  srv (page_request self (1 + Z.of_nat (length full))) = Ok (Response st body) ->
  st <> 200 ->
  (length full < fuel)%nat ->
  fetch_all_releases srv self fuel =
    Some (Fetched (Ok (concat full))
            (map (page_request self) (page_numbers 1 (S (length full)))))
  /\ (forall fuel' page st' body' results issued,
        srv (page_request self page) = Ok (Response st' body') ->
        st' <> 200 ->
        fetch_loop srv self (S fuel') page results issued =
        Some (Fetched (Ok results) (issued ++ [page_request self page]))).
Proof.
  intros Hfull Hrefused Hst Hfuel. split.
  - unfold fetch_all_releases.
    replace fuel with (length full + S (fuel - S (length full)))%nat by lia.
    rewrite fetch_loop_through by assumption.
    rewrite (fetch_loop_refused _ _ st body) by assumption.
    now rewrite page_numbers_snoc, map_app.
  - intros. now apply (fetch_loop_refused _ _ st' body').
Qed.

End Pagination.

Lemma fetch_all_releases_concat_witness :
  GitHub.returned <$> GitHub.fetch_all_releases Scenario.two_pages Scenario.octocat 5
  = Some (Ok (Scenario.full_page ++ [Scenario.v1])).
Proof.
  destruct (fetch_all_releases_concat Scenario.two_pages Scenario.octocat
              [Scenario.full_page] [Scenario.v1] 5) as [H _].
  - intros [|i] data Hi; [| destruct i; discriminate Hi].
    injection Hi as <-. split; reflexivity.
  - reflexivity.
  - reflexivity.
  - simpl. lia.
  - rewrite H. reflexivity.
Defined.

Lemma fetch_all_releases_non_200_witness :
  GitHub.fetch_all_releases Scenario.rate_limited Scenario.octocat 5
  = Some (GitHub.Fetched (Ok Scenario.full_page)
            [GitHub.page_request Scenario.octocat 1;
             GitHub.page_request Scenario.octocat 2]).
Proof.
  destruct (fetch_all_releases_non_200 Scenario.rate_limited Scenario.octocat
              [Scenario.full_page] 403 (Ok []) 5) as [H _].
  - intros [|i] data Hi; [| destruct i; discriminate Hi].
    injection Hi as <-. split; [reflexivity | vm_compute; discriminate].
  - reflexivity.
  - discriminate.
  - simpl. lia.
  - rewrite H. reflexivity.
Defined.

(** ** The datetime parser at work *)

Example strptime_iso_accepts :
  Datetime.strptime_iso "2024-01-10T00:00:00Z" = Some (738894 * Datetime.us_per_day)
  /\ Datetime.strptime_iso "2024-1-5t1:2:3z" = Datetime.make 2024 1 5 1 2 3
  /\ Datetime.strptime_iso "2024-02-29T23:59:59Z" = Datetime.make 2024 2 29 23 59 59
  /\ Datetime.strptime_iso "9999-12-31T23:59:59Z"
     = Some ((Datetime.max_ordinal * 86400 - 1) * 1000000).
Proof. repeat split; vm_compute; reflexivity. Qed.

Example strptime_iso_rejects :
  List.map Datetime.strptime_iso
    [""; "2024-01-10"; "2024-01-10T00:00:00"; "2024-01-10T00:00:00+00:00";
     "2024-01-10T00:00:00Z "; "2024-01-10T24:00:00Z"; "2024-01-10T00:00:60Z";
     "2023-02-29T00:00:00Z"; "0000-01-10T00:00:00Z"; "2024-13-01T00:00:00Z";
     "24-01-10T00:00:00Z"]
  = List.map (fun _ => None)
      [""; "2024-01-10"; "2024-01-10T00:00:00"; "2024-01-10T00:00:00+00:00";
       "2024-01-10T00:00:00Z "; "2024-01-10T24:00:00Z"; "2024-01-10T00:00:60Z";
       "2023-02-29T00:00:00Z"; "0000-01-10T00:00:00Z"; "2024-13-01T00:00:00Z";
       "24-01-10T00:00:00Z"].
Proof. vm_compute. reflexivity. Qed.

(** ** [get_recent_releases] *)

Section RecentReleases.

Import Datetime GitHub.

Variable strptime : string -> option datetime.

(** The parser accepts no empty string. *)
Hypothesis strptime_empty : strptime "" = None.

Local Abbreviation recent := (GitHub.recent strptime).
Local Abbreviation filter_loop := (GitHub.filter_loop strptime).

(** The loop appends, in input order, the projection of each release that
    is recent. *)
Lemma filter_loop_spec (cutoff : datetime) (releases : list release) :
  forall acc,
  filter_loop cutoff releases acc =
  acc ++ map project (List.filter (recent cutoff) releases).
Proof.
  induction releases as [|r releases IH]; intros acc; simpl.
  - now rewrite app_nil_r.
  - unfold GitHub.recent at 1, project at 1, dict_get at 1 2 3.
    destruct (r !! "published_at") as [v|] eqn:Ev; simpl.
    + destruct v as [|b|n|s|l|d]; simpl.
      * apply IH.
      * destruct b; apply IH.
      * destruct (n =? 0); apply IH.
      * destruct (String.eqb_spec s "") as [-> | Hs]; simpl.
        -- rewrite strptime_empty. apply IH.
        -- destruct (strptime s) as [t|]; simpl; [| apply IH].
           destruct (cutoff <=? t); [| apply IH].
           rewrite IH, <- app_assoc. simpl. do 2 f_equal.
           unfold dict_get. now rewrite Ev.
      * destruct l; apply IH.
      * destruct (Nat.eqb (size d) 0); apply IH.
    + apply IH.
Qed.

Lemma recent_spec (cutoff : datetime) (r : release) :
  recent cutoff r = true <->
  exists s t, r !! "published_at" = Some (PStr s) /\ strptime s = Some t /\ cutoff <= t.
Proof.
  unfold GitHub.recent. split.
  - destruct (r !! "published_at") as [[| | |s| |]|]; try discriminate.
    destruct (strptime s) as [t|] eqn:Et; [| discriminate].
    intros H. exists s, t. repeat split; [assumption | lia].
  - intros (s & t & -> & -> & H). lia.
Qed.

(** For a day count in the range the application allows, and any current
    time from the second year on, the cutoff is a datetime. *)
Lemma cutoff_in_range (now : datetime) (n_days : Z) :
  1 <= n_days <= 365 ->
  in_range now = true ->
  365 * us_per_day <= now ->
  Z.abs n_days <= 999999999 /\ in_range (now - n_days * us_per_day) = true.
Proof.
  unfold in_range, us_per_day, max_ordinal. intros Hn Hnow Hyear.
  apply andb_prop in Hnow as [H0 Hmax].
  split; [lia |]. apply andb_true_intro. split; lia.
Qed.

(** C1.  Whatever list of raw releases was fetched, for every day count
    whose cutoff [now - n_days] days is a datetime (so for every count the
    application allows, 1 to 365, see [cutoff_in_range]),
    [get_recent_releases] returns without raising, and its result holds,
    in input order, the projection to time, version and description
    (from [published_at], [tag_name] and [body]) of exactly those releases
    whose [published_at] is a string that parses under the format to a
    time at or after the cutoff; a release whose [published_at] is missing,
    no string, or does not parse is left out. *)
Theorem get_recent_releases_recent (srv : server) (self : GitHubClient)
    (fuel : nat) (now : datetime) (n_days : Z)
    (releases : list release) (issued : list request) (cutoff : datetime) :
  fetch_all_releases srv self fuel = Some (Fetched (Ok releases) issued) ->
  Z.abs n_days <= 999999999 ->
  cutoff = now - n_days * us_per_day ->
  in_range cutoff = true ->
  get_recent_releases strptime srv self fuel now n_days =
    Some (Ok (map project (List.filter (recent cutoff) releases)))
  /\ (forall f,
        In f (map project (List.filter (recent cutoff) releases)) <->
        exists r s t,
          In r releases /\ r !! "published_at" = Some (PStr s) /\
          strptime s = Some t /\ cutoff <= t /\
          f = Filtered (PStr s) (dict_get r "tag_name") (dict_get r "body"))
  /\ (forall r, In r releases ->
        (r !! "published_at" = None \/
         (exists v, r !! "published_at" = Some v /\ forall s, v <> PStr s) \/
         (exists s, r !! "published_at" = Some (PStr s) /\ strptime s = None)) ->
        ~ In r (List.filter (recent cutoff) releases)).
Proof.
  intros Hfetch Hdays -> Hrange. repeat split.
  - unfold get_recent_releases. rewrite Hfetch. simpl.
    unfold timedelta_days.
    destruct (Z.leb_spec (Z.abs n_days) 999999999); [| lia]. simpl.
    unfold sub. rewrite Hrange. simpl.
    now rewrite filter_loop_spec.
  - intros Hin. apply in_map_iff in Hin as (r & <- & Hr).
    apply filter_In in Hr as [Hr Hrecent].
    apply recent_spec in Hrecent as (s & t & Hs & Ht & Hle).
    exists r, s, t. repeat split; try assumption.
    unfold project, dict_get at 1. now rewrite Hs.
  - intros (r & s & t & Hr & Hs & Ht & Hle & ->).
    apply in_map_iff. exists r. split.
    + unfold project, dict_get at 1. now rewrite Hs.
    + apply filter_In. split; [assumption |].
      apply recent_spec. now exists s, t.
  - intros r Hr Hbad Hin. apply filter_In in Hin as [_ Hrecent].
    apply recent_spec in Hrecent as (s & t & Hs & Ht & _).
    destruct Hbad as [Hnone | [(v & Hv & Hnot) | (s' & Hs' & Hfail)]].
    + congruence.
    + rewrite Hs in Hv. injection Hv as <-. now apply (Hnot s).
    + rewrite Hs in Hs'. injection Hs' as <-. congruence.
Qed.

End RecentReleases.

(** The worked example: two releases, now 2024-01-12, a window of 7 days. *)
Lemma get_recent_releases_recent_witness :
  GitHub.get_recent_releases Datetime.strptime_iso Scenario.one_page
    Scenario.octocat 5 Scenario.now 7
  = Some (Ok [GitHub.Filtered (PStr "2024-01-10T00:00:00Z") (PStr "v1") (PStr "fix")]).
Proof.
  destruct (get_recent_releases_recent Datetime.strptime_iso eq_refl
              Scenario.one_page Scenario.octocat 5 Scenario.now 7
              [Scenario.v1; Scenario.v0]
              [GitHub.page_request Scenario.octocat 1]
              (Scenario.now - 7 * Datetime.us_per_day)) as (H & _).
  - reflexivity.
  - simpl. lia.
  - reflexivity.
  - reflexivity.
  - rewrite H. reflexivity.
Defined.

(** Beyond the range of day counts the application allows, a window that
    reaches before the first datetime makes the cutoff computation raise. *)
Example get_recent_releases_overflow :
  GitHub.get_recent_releases Datetime.strptime_iso Scenario.one_page
    Scenario.octocat 5 Scenario.now 4000000
  = Some (Raise (Exn OverflowError "date value out of range")).
Proof. reflexivity. Qed.

(** ** Summarizer clients: [stream_summary] *)

Section Summarizer.

Import Gpt.

(** What the loop yields for a chunk with content [v]. *)
Local Abbreviation fragment := (fun v : pyval => py_or v (PStr "")).

Lemma iterate_breaks (r : response) (vs : list pyval) (e : exn) :
  breaks r vs e -> iterate r = (map fragment vs, Some e).
Proof.
  induction 1 as [e | c rest e Hc | c v rest vs e Hc _ IH]; simpl.
  - reflexivity.
  - now rewrite Hc.
  - now rewrite Hc, IH.
Qed.

Lemma iterate_completes (r : response) (vs : list pyval) :
  completes r vs -> iterate r = (map fragment vs, None).
Proof.
  induction 1 as [| c v rest vs Hc _ IH]; simpl; [reflexivity |].
  now rewrite Hc, IH.
Qed.

Lemma try_stream_sent (be : backend) (rq : chat_request) (h : exn -> pyval) :
  sent (try_stream be rq h) = [rq].
Proof.
  unfold try_stream.
  destruct (match be rq with Ok r => iterate r | Raise e => ([], Some e) end)
    as [ys [e|]]; [destruct (is_Exception e) |]; reflexivity.
Qed.

Lemma try_stream_fails (be : backend) (rq : chat_request) (h : exn -> pyval)
    (vs : list pyval) (e : exn) :
  fails (be rq) vs e -> is_Exception e = true ->
  try_stream be rq h = Run [rq] (map fragment vs ++ [h e]) None.
Proof.
  intros Hf He. unfold try_stream.
  inversion Hf as [e' Hbe | r vs' e' Hb Hbe]; subst.
  - simpl. now rewrite He.
  - rewrite (iterate_breaks _ _ _ Hb). now rewrite He.
Qed.

Lemma try_stream_completes (be : backend) (rq : chat_request) (h : exn -> pyval)
    (r : response) (vs : list pyval) :
  be rq = Ok r -> completes r vs ->
  try_stream be rq h = Run [rq] (map fragment vs) None.
Proof.
  intros Hbe Hc. unfold try_stream.
  now rewrite Hbe, (iterate_completes _ _ Hc).
Qed.

(** The system message of each class. *)
Local Abbreviation system_text := (fun c : backend_class =>
  match c with
  | OpenAI => "You are a seasoned software engineer."
  | ZhipuAI =>
      "You are a knowledgeable assistant that provides professional and insightful advice."
  end).

(** Either class runs [try_stream] on one request with one handler. *)
Lemma stream_summary_unfold (self : BaseGPTClient) (be : backend)
    (releases : string) (n_days : Z) (language : string) :
  stream_summary self be releases n_days language =
  try_stream be
    (ChatRequest
       match cls self with
       | OpenAI => "gpt-4o"
       | ZhipuAI => default "" (model self)
       end
       [Message "system" (system_text (cls self));
        Message "user" (generate_prompt self releases n_days language)]
       true
       match cls self with
       | OpenAI => Some 0%Q
       | ZhipuAI => None
       end)
    (fun e => PStr (nl +:+ "Error calling " +:+ display_name (cls self)
                      +:+ " API: " +:+ exn_str e)).
Proof.
  unfold stream_summary. destruct (cls self); reflexivity.
Qed.

Lemma stream_summary_shape (self : BaseGPTClient) (be : backend)
    (releases : string) (n_days : Z) (language : string) :
  exists rq,
    stream_summary self be releases n_days language =
    try_stream be rq
      (fun e => PStr (nl +:+ "Error calling " +:+ display_name (cls self)
                        +:+ " API: " +:+ exn_str e)).
Proof. eexists. apply stream_summary_unfold. Qed.

Lemma fragment_text (v : pyval) :
  v = PNone \/ (exists s, v = PStr s) -> fragment v = PStr (text_of v).
Proof.
  intros [-> | [s ->]]; [reflexivity |].
  unfold py_or. simpl. now destruct (String.eqb_spec s "") as [-> |].
Qed.

Lemma accumulate_texts (vs : list pyval) :
  forall acc,
  accumulate acc (map (fun v => PStr (text_of v)) vs) =
  Ok (acc +:+ join (map text_of vs)).
Proof.
  induction vs as [|v vs IH]; intros acc; simpl.
  - now rewrite app_empty_r.
  - rewrite IH. unfold join. simpl. now rewrite app_assoc_str.
Qed.

(** C4.  Either backend's [stream_summary] sends one request, and for a
    failure of the backend on that request that is an [Exception], raised
    by [create], by the iteration or by reading a chunk without choices,
    after [k] chunks were delivered: [stream_summary] does not raise; it
    yields the [k] fragments of those chunks, then one last fragment made
    of a newline and [Error calling <Backend> API: <details>], and ends:
    [k + 1] fragments in all. *)
Theorem stream_summary_error_fragment (self : BaseGPTClient) (be : backend)
    (releases : string) (n_days : Z) (language : string) :
  exists rq,
    sent (stream_summary self be releases n_days language) = [rq]
    /\ forall (vs : list pyval) (e : exn),
         fails (be rq) vs e ->
         is_Exception e = true ->
         stream_summary self be releases n_days language =
           Run [rq]
             (map fragment vs ++
              [PStr (nl +:+ "Error calling " +:+ display_name (cls self)
                        +:+ " API: " +:+ exn_str e)])
             None
         /\ length (yielded (stream_summary self be releases n_days language))
            = (length vs + 1)%nat.
Proof.
  rewrite stream_summary_unfold. eexists.
  split; [apply try_stream_sent |]. intros vs e Hf He.
  rewrite (try_stream_fails _ _ _ vs e Hf He). split; [reflexivity |].
  simpl. now rewrite length_app, length_map.
Qed.

(** C10.  Either backend's [stream_summary] sends one request, and when
    the backend's stream for that request ends normally and every chunk's
    content is a string or [None], every fragment yielded is a string; a
    chunk whose content is [None] yields the empty string; the caller's
    concatenation of the fragments succeeds and is the concatenation of
    the contents that are strings. *)
Theorem stream_summary_yields_strings (self : BaseGPTClient) (be : backend)
    (releases : string) (n_days : Z) (language : string) :
  exists rq,
    sent (stream_summary self be releases n_days language) = [rq]
    /\ forall (r : response) (vs : list pyval),
         be rq = Ok r ->
         completes r vs ->
         Forall (fun v => v = PNone \/ exists s, v = PStr s) vs ->
         stream_summary self be releases n_days language =
           Run [rq] (map (fun v => PStr (text_of v)) vs) None
         /\ text_of PNone = ""
         /\ accumulate "" (yielded (stream_summary self be releases n_days language))
            = Ok (join (map text_of vs)).
Proof.
  rewrite stream_summary_unfold. eexists.
  split; [apply try_stream_sent |]. intros r vs Hbe Hc Hvs.
  rewrite (try_stream_completes _ _ _ r vs Hbe Hc).
  assert (Hmap : map fragment vs = map (fun v => PStr (text_of v)) vs).
  { apply map_ext_in. intros v Hv. apply fragment_text.
    rewrite Forall_forall in Hvs. apply Hvs. now apply list_elem_of_In. }
  rewrite Hmap. repeat split. simpl. apply accumulate_texts.
Qed.

(** The request either backend sends: two messages, the fixed system
    message of the backend and a user message holding the rendered prompt,
    with streaming enabled.  The OpenAI request sets the temperature to 0;
    the ZhipuAI request passes no temperature. *)
Theorem stream_summary_request (self : BaseGPTClient) (be : backend)
    (releases : string) (n_days : Z) (language : string) :
  exists rq,
    sent (stream_summary self be releases n_days language) = [rq]
    /\ rq_messages rq =
         [Message "system" (system_text (cls self));
          Message "user" (generate_prompt self releases n_days language)]
    /\ rq_stream rq = true
    /\ rq_temperature rq =
         match cls self with
         | OpenAI => Some 0%Q
         | ZhipuAI => None
         end.
Proof.
  rewrite stream_summary_unfold. eexists.
  split; [apply try_stream_sent |]. repeat split.
Qed.

(** C8.  The prompt does not depend on the client: two clients of any
    class get the same prompt for the same arguments, and that prompt is
    the user message either [stream_summary] sends.  For the same releases
    and number of days, two prompts are equal only when the languages
    are. *)
Theorem generate_prompt_shared (c1 c2 : BaseGPTClient) (be1 be2 : backend)
    (releases : string) (n_days : Z) (language language' : string) :
  generate_prompt c1 releases n_days language =
  generate_prompt c2 releases n_days language
  /\ user_prompts (stream_summary c1 be1 releases n_days language) =
     user_prompts (stream_summary c2 be2 releases n_days language)
  /\ user_prompts (stream_summary c1 be1 releases n_days language) =
     [generate_prompt c1 releases n_days language]
  /\ (generate_prompt c1 releases n_days language =
      generate_prompt c2 releases n_days language' -> language = language').
Proof.
  assert (Hp : forall c be,
    user_prompts (stream_summary c be releases n_days language) =
    [generate_prompt c releases n_days language]).
  { intros c be. unfold user_prompts.
    rewrite stream_summary_unfold, try_stream_sent. reflexivity. }
  repeat split.
  - now rewrite !Hp.
  - apply Hp.
  - unfold generate_prompt. intros H.
    do 5 apply String.app_inj in H.
    now apply app_inv_tail_str in H.
Qed.

End Summarizer.

Lemma stream_summary_error_fragment_witness :
  Gpt.stream_summary (Gpt.OpenAIClient "key") Scenario.flaky "[]" 7 "English" =
  Gpt.Run
    [Gpt.ChatRequest "gpt-4o"
       [Gpt.Message "system" "You are a seasoned software engineer.";
        Gpt.Message "user"
          (Gpt.generate_prompt (Gpt.OpenAIClient "key") "[]" 7 "English")]
       true (Some 0%Q)]
    [PStr "Release "; PStr "";
     PStr (nl +:+ "Error calling OpenAI API: Connection error.")]
    None.
Proof.
  destruct (stream_summary_error_fragment (Gpt.OpenAIClient "key")
              Scenario.flaky "[]" 7 "English") as (rq & Hsent & H).
  destruct (H [PStr "Release "; PNone]
              (Exn (OtherException "APIConnectionError") "Connection error."))
    as [Hrun _].
  - apply Gpt.fails_stream.
    apply (Gpt.breaks_later (Gpt.chunk_of (PStr "Release ")) _ _ _ _ eq_refl).
    apply (Gpt.breaks_later (Gpt.chunk_of PNone) _ _ _ _ eq_refl).
    apply Gpt.breaks_iter.
  - reflexivity.
  - rewrite Hrun. vm_compute in Hsent. injection Hsent as <-. reflexivity.
Defined.

Lemma stream_summary_yields_strings_witness :
  Gpt.accumulate ""
    (Gpt.yielded (Gpt.stream_summary (Gpt.ZhipuAIClient "key" "glm-4-flash")
                    Scenario.steady "[]" 7 "English"))
  = Ok "v1 fixes".
Proof.
  destruct (stream_summary_yields_strings
              (Gpt.ZhipuAIClient "key" "glm-4-flash") Scenario.steady "[]" 7
              "English") as (rq & _ & H).
  destruct (H _ [PStr "v1 "; PNone; PStr "fixes"] eq_refl) as (_ & _ & Hacc).
  - apply (Gpt.completes_chunk (Gpt.chunk_of (PStr "v1 ")) _ _ _ eq_refl).
    apply (Gpt.completes_chunk (Gpt.chunk_of PNone) _ _ _ eq_refl).
    apply (Gpt.completes_chunk (Gpt.chunk_of (PStr "fixes")) _ _ _ eq_refl).
    apply Gpt.completes_done.
  - repeat (apply List.Forall_cons;
              [first [left; reflexivity | right; eexists; reflexivity] |]).
    apply List.Forall_nil.
  - rewrite Hacc. reflexivity.
Defined.

Lemma generate_prompt_shared_witness :
  Gpt.generate_prompt (Gpt.OpenAIClient "k1") "[]" 7 "English" =
  Gpt.generate_prompt (Gpt.ZhipuAIClient "k2" "glm-4-flash") "[]" 7 "English"
  /\ "English" = "English".
Proof.
  destruct (generate_prompt_shared (Gpt.OpenAIClient "k1")
              (Gpt.ZhipuAIClient "k2" "glm-4-flash")
              Scenario.steady Scenario.flaky "[]" 7 "English" "English")
    as (H1 & _ & _ & H4).
  split; [exact H1 | exact (H4 H1)].
Defined.

(** Whatever the key, the model, the backend and the arguments, the request
    of a ZhipuAI client carries no temperature and the request of an OpenAI
    client carries temperature 0. *)
Lemma request_temperatures (api_key model : string) (be : Gpt.backend)
    (releases : string) (n_days : Z) (language : string) :
  map Gpt.rq_temperature
    (Gpt.sent (Gpt.stream_summary (Gpt.ZhipuAIClient api_key model)
                 be releases n_days language))
  = [None]
  /\ map Gpt.rq_temperature
       (Gpt.sent (Gpt.stream_summary (Gpt.OpenAIClient api_key)
                    be releases n_days language))
     = [Some 0%Q].
Proof.
  split; rewrite stream_summary_unfold, try_stream_sent; reflexivity.
Qed.

(** C5.  The claim asks for temperature 0 on every backend.  The one
    request a ZhipuAI client sends has streaming enabled and two messages,
    but carries no temperature, where the request of an OpenAI client
    carries temperature 0. *)
Lemma zhipuai_request_without_temperature :
  map Gpt.rq_temperature
    (Gpt.sent (Gpt.stream_summary (Gpt.ZhipuAIClient "key" "glm-4-flash")
                 Scenario.steady "[]" 7 "English"))
  = [None]
  /\ map Gpt.rq_temperature
       (Gpt.sent (Gpt.stream_summary (Gpt.OpenAIClient "key")
                    Scenario.steady "[]" 7 "English"))
     = [Some 0%Q].
Proof. split; reflexivity. Qed.

(** ** [create_gpt_client] *)

Section Factory.

Import Gpt.

Lemma in_all_ascii (c : ascii) : In c all_ascii.
Proof.
  unfold all_ascii. apply in_map_iff. exists (nat_of_ascii c). split.
  - apply ascii_nat_embedding.
  - apply in_seq. pose proof (nat_ascii_bounded c). lia.
Qed.

(** Checked on all pairs of characters. *)
Lemma lower_char_same_letter (a b : ascii) :
  is_lower_letter b = true ->
  ascii_eqb (lower_char a) b = same_letter a b.
Proof.
  assert (H : forallb (fun b => forallb (fun a =>
                Bool.eqb (ascii_eqb (lower_char a) b) (same_letter a b))
                all_ascii) (List.filter is_lower_letter all_ascii) = true)
    by (vm_compute; reflexivity).
  intros Hb. rewrite forallb_forall in H.
  specialize (H b (proj2 (filter_In _ _ _) (conj (in_all_ascii b) Hb))).
  rewrite forallb_forall in H. specialize (H a (in_all_ascii a)).
  now apply Bool.eqb_prop.
Qed.

Lemma lower_same_ignoring_case (p t : string) :
  all_lower_letters t = true ->
  String.eqb (lower p) t = same_ignoring_case p t.
Proof.
  revert t. induction p as [|a p IH]; intros [|b t] Ht; simpl; try reflexivity.
  simpl in Ht. apply andb_prop in Ht as [Hb Ht].
  rewrite <- (lower_char_same_letter a b Hb), <- (IH t Ht).
  unfold ascii_eqb. reflexivity.
Qed.

(** C6.  [create_gpt_client] returns an OpenAI client when the name is
    [openai] up to case, a ZhipuAI client when it is [zhipuai] up to case,
    and raises [ValueError] for every other name.  The client returned
    carries the lower-case name as its [provider].  In particular
    [unsupported] is refused and [OpenAI] and [zhipuai] are accepted. *)
Theorem create_gpt_client_providers (name api_key model : string) :
  (same_ignoring_case name "openai" = true ->
     create_gpt_client name api_key model = Ok (OpenAIClient api_key))
  /\ (same_ignoring_case name "zhipuai" = true ->
       create_gpt_client name api_key model =
       Ok (ZhipuAIClient api_key (if String.eqb model "" then "glm-4-flash" else model)))
  /\ (same_ignoring_case name "openai" = false ->
       same_ignoring_case name "zhipuai" = false ->
       create_gpt_client name api_key model =
       Raise (Exn ValueError ("Unsupported GPT provider: " +:+ lower name)))
  /\ (forall c, create_gpt_client name api_key model = Ok c ->
       provider c = lower name /\
       provider c = match cls c with OpenAI => "openai" | ZhipuAI => "zhipuai" end)
  /\ create_gpt_client "unsupported" "key" "" =
       Raise (Exn ValueError "Unsupported GPT provider: unsupported")
  /\ create_gpt_client "OpenAI" "key" "" = Ok (OpenAIClient "key")
  /\ create_gpt_client "zhipuai" "key" "" = Ok (ZhipuAIClient "key" "glm-4-flash").
Proof.
  unfold create_gpt_client.
  rewrite <- !(lower_same_ignoring_case name) by reflexivity.
  repeat apply conj; try reflexivity.
  - now intros ->.
  - intros Hz. destruct (String.eqb_spec (lower name) "openai") as [Ho |].
    + rewrite Ho in Hz. discriminate.
    + rewrite Hz. now destruct (String.eqb model "").
  - now intros -> ->.
  - intros c.
    destruct (String.eqb_spec (lower name) "openai") as [-> |].
    + now intros [= <-].
    + destruct (String.eqb_spec (lower name) "zhipuai") as [-> |];
        [now intros [= <-] | discriminate].
Qed.

Lemma create_gpt_client_providers_witness :
  create_gpt_client "ZhipuAI" "key" "" = Ok (ZhipuAIClient "key" "glm-4-flash")
  /\ create_gpt_client "OPENAI" "key" "glm-4-plus" = Ok (OpenAIClient "key")
  /\ create_gpt_client "claude" "key" "" =
       Raise (Exn ValueError "Unsupported GPT provider: claude").
Proof.
  destruct (create_gpt_client_providers "ZhipuAI" "key" "") as (_ & H1 & _).
  destruct (create_gpt_client_providers "OPENAI" "key" "glm-4-plus") as (H2 & _).
  destruct (create_gpt_client_providers "claude" "key" "") as (_ & _ & H3 & _).
  split; [| split].
  - apply H1. reflexivity.
  - apply H2. reflexivity.
  - apply H3; reflexivity.
Defined.

End Factory.

(** ** [add_repo] and [remove_repo] *)

Section RepoList.

Import App.

Ltac io_unfold :=
  unfold stored, ensure_data_file, read_repos, io_bind, data_dir_exists,
    makedirs, repos_file_exists, dump, load, ret; simpl.

(** [ensure_data_file] leaves an existing file alone and starts a missing
    one with the empty mapping. *)
Lemma ensure_data_file_spec (st : fs) :
  snd (ensure_data_file st) =
  match repos_file st with
  | Some d => Fs true (Some d) (written st)
  | None => Fs true (Some ∅) (written st ++ [∅])
  end.
Proof.
  destruct st as [dir [d|] w]; destruct dir; reflexivity.
Qed.

Lemma ensure_data_file_load (st : fs) :
  fst (load (snd (ensure_data_file st))) = fst (load st).
Proof.
  rewrite ensure_data_file_spec. destruct st as [dir [d|] w]; reflexivity.
Qed.

Lemma read_repos_stored (session_id : string) (st : fs) :
  fst (read_repos session_id st) = stored st session_id.
Proof.
  destruct st as [dir [d|] w]; destruct dir; reflexivity.
Qed.

Lemma add_repo_unfold (session_id repo_str username repo : string) (st : fs) :
  Repo.parse_repo_input repo_str = Ok (username, repo) ->
  add_repo session_id repo_str st =
  let st1 := snd (ensure_data_file st) in
  let new_repo := username +:+ "/" +:+ repo in
  if str_in new_repo (stored st session_id)
  then (Ok (false, "Repository already exists."), st1)
  else (Ok (true, "Repository added."),
        snd (dump (<[session_id := stored st session_id ++ [new_repo]]>
                     (fst (load st))) st1)).
Proof.
  intros Hp. unfold add_repo. rewrite Hp.
  destruct st as [dir [d|] w]; destruct dir; io_unfold;
    match goal with |- context [if ?b then _ else _] => destruct b end;
    reflexivity.
Qed.

Lemma remove_repo_unfold (session_id repo_str : string) (st : fs) :
  remove_repo session_id repo_str st =
  let st1 := snd (ensure_data_file st) in
  if negb (str_in repo_str (stored st session_id))
  then ((false, "Repository not found."), st1)
  else ((true, "Repository removed."),
        snd (dump (<[session_id := list_remove repo_str (stored st session_id)]>
                     (fst (load st))) st1)).
Proof.
  unfold remove_repo.
  destruct st as [dir [d|] w]; destruct dir; io_unfold;
    match goal with |- context [if ?b then _ else _] => destruct b end;
    reflexivity.
Qed.

(** C9 (amended).  An unparseable input makes [add_repo] fail and leaves
    the file system as it was; a repository already stored makes it fail,
    and one that is not stored makes [remove_repo] fail.  Whenever either
    call fails, the mapping read back from the file is the one read
    before, and a file that existed is not written.  When the file did not
    exist, a failing [add_repo] still writes nothing, and a failing
    [remove_repo] has written it once, with the empty mapping. *)
Theorem failed_update_keeps_mapping (session_id repo_str : string) (st : fs) :
  (forall e, Repo.parse_repo_input repo_str = Raise e -> exn_cls e = ValueError ->
     add_repo session_id repo_str st = (Ok (false, "Invalid repository format."), st))
  /\ (forall username repo,
       Repo.parse_repo_input repo_str = Ok (username, repo) ->
       str_in (username +:+ "/" +:+ repo) (stored st session_id) = true ->
       fst (add_repo session_id repo_str st) = Ok (false, "Repository already exists."))
  /\ (str_in repo_str (stored st session_id) = false ->
       fst (remove_repo session_id repo_str st) = (false, "Repository not found."))
  /\ (forall msg st',
       add_repo session_id repo_str st = (Ok (false, msg), st') ->
       fst (load st') = fst (load st)
       /\ repos_file st' = repos_file st
       /\ written st' = written st)
  /\ (forall msg st',
       remove_repo session_id repo_str st = ((false, msg), st') ->
       fst (load st') = fst (load st)
       /\ (forall d, repos_file st = Some d ->
             repos_file st' = Some d /\ written st' = written st)
       /\ (repos_file st = None ->
             repos_file st' = Some ∅ /\ written st' = written st ++ [∅])).
Proof.
  repeat apply conj.
  - intros e He Hcls. unfold add_repo. now rewrite He, Hcls.
  - intros username repo Hp Hin. rewrite (add_repo_unfold _ _ _ _ _ Hp).
    simpl. now rewrite Hin.
  - intros Hin. rewrite remove_repo_unfold. simpl. now rewrite Hin.
  - intros msg st'. destruct (Repo.parse_repo_input repo_str) as [[u r]|e] eqn:Hp.
    + rewrite (add_repo_unfold _ _ _ _ _ Hp). cbv zeta.
      destruct (str_in _ _) eqn:Hin; [| discriminate].
      intros [= <- <-]. rewrite ensure_data_file_load, ensure_data_file_spec.
      destruct (repos_file st) as [d|] eqn:Hd; simpl; [auto |].
      (* without a file nothing is stored, so nothing is found *)
      unfold stored in Hin. rewrite Hd in Hin. discriminate Hin.
    + unfold add_repo. rewrite Hp.
      destruct (exn_cls e); unfold ret; intros [= <- <-]; auto.
  - intros msg st'. rewrite remove_repo_unfold. cbv zeta.
    destruct (negb _); [| discriminate].
    intros [= <- <-]. rewrite ensure_data_file_load, ensure_data_file_spec.
    destruct (repos_file st) as [d|]; simpl; repeat split; congruence.
Qed.

End RepoList.

Lemma failed_update_keeps_mapping_witness :
  App.add_repo "s1" "octocat" (App.Fs true (Some {[ "s1" := ["octo/cat"] ]}) [])
  = (Ok (false, "Invalid repository format."),
     App.Fs true (Some {[ "s1" := ["octo/cat"] ]}) [])
  /\ fst (App.add_repo "s1" " octo/cat"
            (App.Fs true (Some {[ "s1" := ["octo/cat"] ]}) []))
     = Ok (false, "Repository already exists.")
  /\ fst (App.remove_repo "s1" "octo/dog"
            (App.Fs true (Some {[ "s1" := ["octo/cat"] ]}) []))
     = (false, "Repository not found.").
Proof.
  destruct (failed_update_keeps_mapping "s1" "octocat"
              (App.Fs true (Some {[ "s1" := ["octo/cat"] ]}) [])) as (H1 & _).
  destruct (failed_update_keeps_mapping "s1" " octo/cat"
              (App.Fs true (Some {[ "s1" := ["octo/cat"] ]}) [])) as (_ & H2 & _).
  destruct (failed_update_keeps_mapping "s1" "octo/dog"
              (App.Fs true (Some {[ "s1" := ["octo/cat"] ]}) [])) as (_ & _ & H3 & _).
  split; [| split].
  - apply (H1 _ eq_refl eq_refl).
  - apply (H2 "octo" "cat" eq_refl). vm_compute. reflexivity.
  - apply H3. vm_compute. reflexivity.
Defined.

(** C9 as stated fails: [remove_repo] on a file system without the file
    fails with "Repository not found." and has written the file. *)
Lemma remove_repo_creates_file :
  App.remove_repo "s1" "octo/cat" (App.Fs false None [])
  = ((false, "Repository not found."), App.Fs true (Some ∅) [∅]).
Proof. reflexivity. Qed.

(** * Further properties *)

(** ** [parse_repo_input] and surrounding whitespace *)

Section ParseMore.

Import Repo.

Local Abbreviation slash := "/"%char.

Lemma lstrip_all_space (pad s : string) :
  all_space pad = true -> lstrip (pad +:+ s) = lstrip s.
Proof.
  induction pad as [|c pad IH]; push_app; intros H; [reflexivity |].
  simpl in H. apply andb_prop in H as [Hc Hpad]. now rewrite Hc, IH.
Qed.

Lemma rstrip_all_space (pad : string) : all_space pad = true -> rstrip pad = "".
Proof.
  induction pad as [|c pad IH]; simpl; intros H; [reflexivity |].
  apply andb_prop in H as [Hc Hpad]. now rewrite (IH Hpad), Hc.
Qed.

Lemma rstrip_app_space (s pad : string) :
  all_space pad = true -> rstrip (s +:+ pad) = rstrip s.
Proof.
  intros H. induction s as [|c s IH]; push_app.
  - now apply rstrip_all_space.
  - now rewrite IH.
Qed.

Lemma strip_app_space (s pad : string) :
  all_space pad = true -> strip (s +:+ pad) = strip s.
Proof.
  intros H. unfold strip. induction s as [|c s IH]; push_app.
  - rewrite <- (app_empty_r pad), lstrip_all_space by assumption. reflexivity.
  - destruct (isspace c); [exact IH |].
    rewrite <- app_String. now apply rstrip_app_space.
Qed.

Lemma rstrip_idem (s : string) : rstrip (rstrip s) = rstrip s.
Proof.
  induction s as [|c s IH]; simpl; [reflexivity |].
  destruct (rstrip s) as [|d r] eqn:E.
  - destruct (isspace c) eqn:Ec; simpl; [reflexivity | now rewrite Ec].
  - simpl. simpl in IH. now rewrite IH.
Qed.

(** A string that is empty or starts with a character that is no
    whitespace. *)
Local Abbreviation clean_head := (fun s : string =>
  match s with
  | EmptyString => True
  | String c _ => isspace c = false
  end).

Lemma lstrip_clean_head (s : string) : clean_head (lstrip s).
Proof.
  induction s as [|c s IH]; simpl; [exact I |].
  destruct (isspace c) eqn:E; [exact IH | exact E].
Qed.

Lemma lstrip_fixed (s : string) : clean_head s -> lstrip s = s.
Proof. destruct s as [|c s]; simpl; [reflexivity | now intros ->]. Qed.

Lemma rstrip_clean_head (s : string) : clean_head s -> clean_head (rstrip s).
Proof.
  destruct s as [|c s]; simpl; [exact id |]. intros Hc.
  destruct (rstrip s); [rewrite Hc |]; exact Hc.
Qed.

Lemma strip_idem (s : string) : strip (strip s) = strip s.
Proof.
  unfold strip.
  rewrite (lstrip_fixed (rstrip (lstrip s))).
  - apply rstrip_idem.
  - apply rstrip_clean_head, lstrip_clean_head.
Qed.

Lemma strip_padding (pad1 pad2 s : string) :
  all_space pad1 = true -> all_space pad2 = true ->
  strip (pad1 +:+ s +:+ pad2) = strip s.
Proof.
  intros H1 H2. unfold strip. rewrite lstrip_all_space by assumption.
  now apply strip_app_space.
Qed.

(** X1.  Whitespace around the input does not matter: with any run of
    whitespace before and after it, the input parses to the same result,
    or fails with the same error. *)
Theorem parse_repo_input_ignores_padding (pad1 pad2 s : string) :
  all_space pad1 = true -> all_space pad2 = true ->
  parse_repo_input (pad1 +:+ s +:+ pad2) = parse_repo_input s.
Proof.
  intros H1 H2. unfold parse_repo_input.
  now rewrite strip_padding.
Qed.

Lemma parse_repo_input_ignores_padding_witness :
  parse_repo_input (String " " nl +:+ "octo/cat" +:+ "  ")
  = parse_repo_input "octo/cat".
Proof.
  apply (parse_repo_input_ignores_padding (String " " nl) "  " "octo/cat");
    reflexivity.
Defined.

Lemma split1_join (c : ascii) (s u r : string) :
  split1 c s = [u; r] -> s = u +:+ String c r /\ contains c u = false.
Proof.
  revert u. induction s as [|d s IH]; intros u; simpl; [discriminate |].
  destruct (ascii_eqb d c) eqn:E.
  - intros [= <- <-]. apply ascii_eqb_true in E. now subst.
  - destruct (split1 c s) as [|x [|y [|z l]]]; try discriminate.
    intros [= <- <-]. destruct (IH x eq_refl) as [-> Hx].
    split; [reflexivity |]. simpl. now rewrite E.
Qed.

(** X2.  An input in the bare form is handed back as it was written: when
    the stripped input does not start with the URL prefix and parses to
    [(username, repo)], then [username/repo] is the stripped input,
    [username] holds no [/], and parsing [username/repo] again gives the
    same pair. *)
Theorem parse_repo_input_bare_round_trip (input u r : string) :
  parse_repo_input input = Ok (u, r) ->
  startswith url_prefix (strip input) = false ->
  u +:+ "/" +:+ r = strip input
  /\ contains slash u = false
  /\ parse_repo_input (u +:+ "/" +:+ r) = Ok (u, r).
Proof.
  intros Hp Hbare.
  assert (Hjoin : strip input = u +:+ String slash r /\ contains slash u = false).
  { unfold parse_repo_input in Hp. rewrite Hbare in Hp.
    destruct (negb (contains slash (strip input))); [discriminate |].
    destruct (split1 slash (strip input)) as [|x [|y [|z l]]] eqn:Es;
      try discriminate.
    injection Hp as <- <-. now apply split1_join. }
  destruct Hjoin as [Hs Hu].
  change (u +:+ "/" +:+ r) with (u +:+ String slash r).
  rewrite <- Hs. repeat split; [assumption |].
  unfold parse_repo_input in Hp |- *. now rewrite strip_idem.
Qed.

Lemma parse_repo_input_bare_round_trip_witness :
  parse_repo_input ("octo" +:+ "/" +:+ "cat/dog") = Ok ("octo", "cat/dog").
Proof.
  apply (parse_repo_input_bare_round_trip " octo/cat/dog "); reflexivity.
Defined.

End ParseMore.

(** ** The repository list: what a successful call stores *)

Section RepoListMore.

Import App.

Lemma str_in_In (x : string) (l : list string) : str_in x l = true <-> In x l.
Proof.
  unfold str_in. rewrite existsb_exists. split.
  - intros (y & Hy & E). apply String.eqb_eq in E. now subst.
  - intros H. exists x. split; [assumption | apply String.eqb_refl].
Qed.

Lemma str_in_false (x : string) (l : list string) :
  str_in x l = false <-> ~ In x l.
Proof.
  rewrite <- str_in_In. destruct (str_in x l); split; congruence.
Qed.

Lemma stored_ensure (st : fs) (session_id : string) :
  stored (snd (ensure_data_file st)) session_id = stored st session_id.
Proof.
  rewrite ensure_data_file_spec. destruct st as [dir [d|] w]; reflexivity.
Qed.

Lemma stored_dump (data : repos_data) (st : fs) (session_id other : string)
    (repos : list string) :
  stored (snd (dump (<[session_id := repos]> data) st)) other =
  if decide (session_id = other) then repos else default [] (data !! other).
Proof.
  unfold stored, dump. simpl. rewrite lookup_insert.
  destruct (decide (session_id = other)); reflexivity.
Qed.

Lemma load_ensure (st : fs) : fst (load st) = default ∅ (repos_file st).
Proof. reflexivity. Qed.

(** What is stored after [add_repo], whatever its result. *)
Lemma add_repo_stored (session_id repo_str : string) (st : fs) (other : string) :
  stored (snd (add_repo session_id repo_str st)) other =
  match Repo.parse_repo_input repo_str with
  | Ok (username, repo) =>
      if decide (session_id = other) then
        if str_in (username +:+ "/" +:+ repo) (stored st session_id)
        then stored st session_id
        else stored st session_id ++ [username +:+ "/" +:+ repo]
      else stored st other
  | Raise _ => stored st other
  end.
Proof.
  destruct (Repo.parse_repo_input repo_str) as [[u r]|e] eqn:Hp.
  - rewrite (add_repo_unfold _ _ _ _ _ Hp). cbv zeta.
    destruct (str_in _ _) eqn:Hin; cbn [snd].
    + rewrite stored_ensure. now destruct (decide (session_id = other)) as [<- |].
    + rewrite stored_dump. now destruct (decide (session_id = other)).
  - unfold add_repo. rewrite Hp. now destruct (exn_cls e).
Qed.

(** What is stored after [remove_repo], whatever its result. *)
Lemma remove_repo_stored (session_id repo_str : string) (st : fs) (other : string) :
  stored (snd (remove_repo session_id repo_str st)) other =
  if decide (session_id = other)
  then list_remove repo_str (stored st session_id)
  else stored st other.
Proof.
  rewrite remove_repo_unfold. cbv zeta.
  destruct (str_in repo_str (stored st session_id)) eqn:Hin; cbn [negb snd].
  - rewrite stored_dump. now destruct (decide (session_id = other)).
  - rewrite stored_ensure. destruct (decide (session_id = other)) as [<- |];
      [| reflexivity].
    apply str_in_false in Hin. clear -Hin.
    induction (stored st session_id) as [|y l IH]; simpl; [reflexivity |].
    destruct (String.eqb_spec y repo_str) as [-> |].
    + exfalso. apply Hin. now left.
    + f_equal. apply IH. intros H. apply Hin. now right.
Qed.

Lemma list_remove_snoc (x : string) (l : list string) :
  ~ In x l -> list_remove x (l ++ [x]) = l.
Proof.
  induction l as [|y l IH]; simpl; intros H.
  - now rewrite String.eqb_refl.
  - destruct (String.eqb_spec y x) as [-> |]; [exfalso; apply H; now left |].
    f_equal. apply IH. intros Hin. apply H. now right.
Qed.

Lemma list_remove_In (x y : string) (l : list string) :
  In y (list_remove x l) -> In y l.
Proof.
  induction l as [|z l IH]; simpl; [exact id |].
  destruct (String.eqb z x); [now right |].
  intros [-> | H]; [now left | right; now apply IH].
Qed.

Lemma list_remove_NoDup (x : string) (l : list string) :
  List.NoDup l -> List.NoDup (list_remove x l) /\ ~ In x (list_remove x l).
Proof.
  induction 1 as [|y l Hy Hl IH]; simpl.
  - split; [constructor | exact id].
  - destruct (String.eqb_spec y x) as [-> |]; [now split |].
    destruct IH as [IH1 IH2]. split.
    + constructor; [| exact IH1]. intros H. apply Hy. now apply list_remove_In in H.
    + intros [-> | H]; [congruence | now apply IH2].
Qed.

(** X3.  A successful [add_repo] appends [username/repo], as parsed, at the
    end of the session's list and leaves every other session's list as it
    was; [read_repos] then returns the longer list. *)
Theorem add_repo_appends (session_id repo_str u r : string) (st : fs) :
  Repo.parse_repo_input repo_str = Ok (u, r) ->
  str_in (u +:+ "/" +:+ r) (stored st session_id) = false ->
  fst (add_repo session_id repo_str st) = Ok (true, "Repository added.")
  /\ stored (snd (add_repo session_id repo_str st)) session_id
     = stored st session_id ++ [u +:+ "/" +:+ r]
  /\ (forall other, other <> session_id ->
        stored (snd (add_repo session_id repo_str st)) other = stored st other)
  /\ fst (read_repos session_id (snd (add_repo session_id repo_str st)))
     = stored st session_id ++ [u +:+ "/" +:+ r].
Proof.
  intros Hp Hin.
  assert (Hs : stored (snd (add_repo session_id repo_str st)) session_id
               = stored st session_id ++ [u +:+ "/" +:+ r]).
  { rewrite add_repo_stored, Hp, Hin. now destruct (decide (session_id = session_id)). }
  repeat apply conj.
  - rewrite (add_repo_unfold _ _ _ _ _ Hp). cbv zeta. now rewrite Hin.
  - exact Hs.
  - intros other Hne. rewrite add_repo_stored, Hp.
    now destruct (decide (session_id = other)) as [<- |].
  - now rewrite read_repos_stored.
Qed.

Lemma add_repo_appends_witness :
  fst (read_repos "s1"
         (snd (add_repo "s1" "https://github.com/octo/dog"
                 (Fs true (Some {[ "s1" := ["octo/cat"] ]}) []))))
  = ["octo/cat"; "octo/dog"].
Proof.
  destruct (add_repo_appends "s1" "https://github.com/octo/dog" "octo" "dog"
              (Fs true (Some {[ "s1" := ["octo/cat"] ]}) []))
    as (_ & _ & _ & H); [reflexivity | vm_compute; reflexivity |].
  rewrite H. vm_compute. reflexivity.
Defined.

(** X4.  A successful [remove_repo] takes the first occurrence of the
    string out of the session's list and leaves every other session's list
    as it was; when the list held no duplicate, the string is gone. *)
Theorem remove_repo_removes (session_id repo_str : string) (st : fs) :
  str_in repo_str (stored st session_id) = true ->
  fst (remove_repo session_id repo_str st) = (true, "Repository removed.")
  /\ stored (snd (remove_repo session_id repo_str st)) session_id
     = list_remove repo_str (stored st session_id)
  /\ (forall other, other <> session_id ->
        stored (snd (remove_repo session_id repo_str st)) other = stored st other)
  /\ (List.NoDup (stored st session_id) ->
       str_in repo_str (stored (snd (remove_repo session_id repo_str st)) session_id)
       = false).
Proof.
  intros Hin.
  assert (Hs : stored (snd (remove_repo session_id repo_str st)) session_id
               = list_remove repo_str (stored st session_id)).
  { rewrite remove_repo_stored. now destruct (decide (session_id = session_id)). }
  repeat apply conj.
  - rewrite remove_repo_unfold. cbv zeta. now rewrite Hin.
  - exact Hs.
  - intros other Hne. rewrite remove_repo_stored.
    now destruct (decide (session_id = other)) as [<- |].
  - intros Hnd. rewrite Hs. apply str_in_false.
    now apply list_remove_NoDup.
Qed.

Lemma remove_repo_removes_witness :
  stored (snd (remove_repo "s1" "octo/cat"
                 (Fs true (Some {[ "s1" := ["octo/cat"; "octo/dog"] ]}) []))) "s1"
  = ["octo/dog"].
Proof.
  destruct (remove_repo_removes "s1" "octo/cat"
              (Fs true (Some {[ "s1" := ["octo/cat"; "octo/dog"] ]}) []))
    as (_ & H & _); [vm_compute; reflexivity |].
  rewrite H. vm_compute. reflexivity.
Defined.

(** X5.  Adding a repository that was not stored and then removing the
    stored string gives back every session's list as it was. *)
Theorem add_then_remove (session_id repo_str u r : string) (st : fs) :
  Repo.parse_repo_input repo_str = Ok (u, r) ->
  str_in (u +:+ "/" +:+ r) (stored st session_id) = false ->
  fst (remove_repo session_id (u +:+ "/" +:+ r)
         (snd (add_repo session_id repo_str st)))
  = (true, "Repository removed.")
  /\ (forall other,
        stored (snd (remove_repo session_id (u +:+ "/" +:+ r)
                       (snd (add_repo session_id repo_str st)))) other
        = stored st other).
Proof.
  intros Hp Hin.
  assert (Hs : stored (snd (add_repo session_id repo_str st)) session_id
               = stored st session_id ++ [u +:+ "/" +:+ r]).
  { rewrite add_repo_stored, Hp, Hin. now destruct (decide (session_id = session_id)). }
  split.
  - rewrite remove_repo_unfold. cbv zeta. rewrite Hs.
    replace (str_in _ _) with true; [reflexivity |].
    symmetry. apply str_in_In, in_or_app. right. now left.
  - intros other. rewrite remove_repo_stored.
    destruct (decide (session_id = other)) as [<- | Hne].
    + rewrite Hs. apply list_remove_snoc. now apply str_in_false.
    + rewrite add_repo_stored, Hp. now destruct (decide (session_id = other)).
Qed.

Lemma add_then_remove_witness :
  stored (snd (remove_repo "s1" ("octo" +:+ "/" +:+ "dog")
                 (snd (add_repo "s1" " octo/dog"
                         (Fs true (Some {[ "s1" := ["octo/cat"] ]}) []))))) "s1"
  = ["octo/cat"].
Proof.
  destruct (add_then_remove "s1" " octo/dog" "octo" "dog"
              (Fs true (Some {[ "s1" := ["octo/cat"] ]}) []))
    as (_ & H); [reflexivity | vm_compute; reflexivity |].
  rewrite H. vm_compute. reflexivity.
Defined.

Lemma NoDup_snoc (x : string) (l : list string) :
  List.NoDup l -> ~ In x l -> List.NoDup (l ++ [x]).
Proof.
  induction 1 as [|y l Hy Hl IH]; simpl; intros Hx.
  - constructor; [exact id | constructor].
  - constructor.
    + intros H. apply in_app_or in H as [H | [-> | []]]; [now apply Hy |].
      apply Hx. now left.
    + apply IH. intros H. apply Hx. now right.
Qed.

Lemma apply_op_NoDup (o : op) (st : fs) :
  (forall session_id, List.NoDup (stored st session_id)) ->
  forall session_id, List.NoDup (stored (apply_op st o) session_id).
Proof.
  intros H other. destruct o as [session_id repo_str | session_id repo_str]; simpl.
  - rewrite add_repo_stored.
    destruct (Repo.parse_repo_input repo_str) as [[u r]|e]; [| apply H].
    destruct (decide (session_id = other)); [| apply H].
    destruct (str_in _ _) eqn:Hin; [apply H |].
    apply NoDup_snoc; [apply H | now apply str_in_false].
  - rewrite remove_repo_stored.
    destruct (decide (session_id = other)); [| apply H].
    now apply list_remove_NoDup.
Qed.

(** X6.  No list gets a duplicate: when no session's list holds a string
    twice, no run of [add_repo] and [remove_repo] calls, successful or not,
    makes one do so; in particular every list built from a missing file is
    free of duplicates. *)
Theorem apply_ops_NoDup (ops : list op) (st : fs) :
  (forall session_id, List.NoDup (stored st session_id)) ->
  forall session_id, List.NoDup (stored (apply_ops ops st) session_id).
Proof.
  unfold apply_ops. revert st.
  induction ops as [|o ops IH]; intros st H; simpl; [exact H |].
  apply IH. now apply apply_op_NoDup.
Qed.

Lemma apply_ops_NoDup_witness :
  List.NoDup
    (stored (apply_ops [Add "s1" "octo/cat"; Add "s1" "https://github.com/octo/cat";
                        Add "s1" "octo/dog"; Remove "s1" "octo/cat";
                        Add "s1" " octo/cat "]
               (Fs false None [])) "s1").
Proof.
  apply (apply_ops_NoDup _ (Fs false None [])).
  intros session_id. vm_compute. constructor.
Defined.

(** X7.  [add_repo] compares what it parsed, not what was typed: after a
    call with an input that parses to [(username, repo)], a call with any
    input that parses to the same pair (the URL for the bare form, the same
    text with other whitespace) fails with "Repository already exists." *)
Theorem add_repo_same_pair (session_id a b u r : string) (st : fs) :
  Repo.parse_repo_input a = Ok (u, r) ->
  Repo.parse_repo_input b = Ok (u, r) ->
  fst (add_repo session_id b (snd (add_repo session_id a st)))
  = Ok (false, "Repository already exists.").
Proof.
  intros Ha Hb. rewrite (add_repo_unfold _ b _ _ _ Hb). cbv zeta.
  rewrite add_repo_stored, Ha.
  destruct (decide (session_id = session_id)); [| congruence].
  replace (str_in (u +:+ "/" +:+ r) _) with true; [reflexivity |].
  symmetry. destruct (str_in (u +:+ "/" +:+ r) (stored st session_id)) eqn:Hin.
  - exact Hin.
  - apply str_in_In, in_or_app. right. now left.
Qed.

Lemma add_repo_same_pair_witness :
  fst (add_repo "s1" "https://github.com/octo/cat/releases"
         (snd (add_repo "s1" "octo/cat" (Fs false None []))))
  = Ok (false, "Repository already exists.").
Proof.
  apply (add_repo_same_pair "s1" "octo/cat"
           "https://github.com/octo/cat/releases" "octo" "cat"); reflexivity.
Defined.

(** X8.  [remove_repo] does not parse its argument: after [add_repo] with
    an input that is not itself the stored [username/repo] (a URL, or
    padded text), [remove_repo] with that same input finds nothing, unless
    the input was stored before. *)
Theorem remove_repo_takes_stored_string (session_id a u r : string) (st : fs) :
  Repo.parse_repo_input a = Ok (u, r) ->
  a <> u +:+ "/" +:+ r ->
  str_in a (stored st session_id) = false ->
  fst (remove_repo session_id a (snd (add_repo session_id a st)))
  = (false, "Repository not found.").
Proof.
  intros Ha Hne Hin. rewrite remove_repo_unfold. cbv zeta.
  rewrite add_repo_stored, Ha.
  destruct (decide (session_id = session_id)); [| congruence].
  replace (str_in a _) with false; [reflexivity |].
  symmetry. apply str_in_false. apply str_in_false in Hin.
  destruct (str_in (u +:+ "/" +:+ r) (stored st session_id)); [exact Hin |].
  intros H. apply in_app_or in H as [H | [H | []]]; [now apply Hin | congruence].
Qed.

Lemma remove_repo_takes_stored_string_witness :
  fst (remove_repo "s1" "https://github.com/octo/cat"
         (snd (add_repo "s1" "https://github.com/octo/cat" (Fs false None []))))
  = (false, "Repository not found.").
Proof.
  apply (remove_repo_takes_stored_string "s1" "https://github.com/octo/cat"
           "octo" "cat"); [reflexivity | discriminate | reflexivity].
Defined.

(** X9.  [read_repos] returns the empty list for a session without an
    entry and when the file is missing; it leaves the file holding the
    mapping it read, creating the file with the empty mapping when it was
    missing; reading again changes nothing further. *)
Theorem read_repos_idempotent (session_id other : string) (st : fs) :
  fst (read_repos session_id st)
  = default [] (default ∅ (repos_file st) !! session_id)
  /\ repos_file (snd (read_repos session_id st))
     = Some (default ∅ (repos_file st))
  /\ dir_exists (snd (read_repos session_id st)) = true
  /\ read_repos other (snd (read_repos session_id st))
     = (default [] (default ∅ (repos_file st) !! other),
        snd (read_repos session_id st)).
Proof.
  destruct st as [dir [d|] w]; destruct dir; repeat split.
Qed.

End RepoListMore.

(** ** [fetch_all_releases] on any server *)

Section PaginationMore.

Import GitHub.

Variable srv : server.
Variable self : GitHubClient.

Local Abbreviation serves := (GitHub.serves srv self).

Lemma str_of_int_inj (a b : Z) : str_of_int a = str_of_int b -> a = b.
Proof.
  assert (Hnil : forall z, Z.to_int z <> Decimal.Pos Decimal.Nil
                        /\ Z.to_int z <> Decimal.Neg Decimal.Nil).
  { intros [|q|q]; split; try discriminate;
      intros [= H]; now apply DecimalPos.Unsigned.to_uint_nonnil in H. }
  unfold str_of_int. intros H.
  apply (f_equal DecimalString.NilZero.int_of_string) in H.
  rewrite !DecimalString.NilZero.isi in H by apply Hnil.
  injection H as H. now apply DecimalZ.to_int_inj.
Qed.

Lemma page_url_inj (p q : Z) : page_url self p = page_url self q -> p = q.
Proof.
  unfold page_url. intros H.
  do 2 apply String.app_inj in H.
  apply app_inv_tail_str in H. now apply str_of_int_inj.
Qed.

Lemma page_numbers_seq (first : Z) (count : nat) (p : Z) :
  In p (page_numbers first count) <-> first <= p < first + Z.of_nat count.
Proof.
  revert first. induction count as [|count IH]; intros first.
  - simpl. lia.
  - cbn [page_numbers In]. rewrite IH. lia.
Qed.

Lemma page_numbers_NoDup (first : Z) (count : nat) :
  List.NoDup (page_numbers first count).
Proof.
  revert first. induction count as [|count IH]; intros first; simpl.
  - constructor.
  - constructor; [| apply IH]. rewrite page_numbers_seq. lia.
Qed.

(** What a run of the loop has requested and gathered when it ends. *)
Lemma fetch_loop_ends (fuel : nat) :
  forall page results issued run,
  fetch_loop srv self fuel page results issued = Some run ->
  exists n : nat,
    (1 <= n <= fuel)%nat
    /\ requests run = issued ++ map (page_request self) (page_numbers page n)
    /\ forall rs, returned run = Ok rs ->
         exists more, rs = results ++ more
           /\ per_page * (Z.of_nat n - 1) <= Z.of_nat (length more).
Proof.
  induction fuel as [|fuel IH]; intros page results issued run; [discriminate |].
  assert (Hstop : forall out,
    Some (Fetched out (issued ++ [page_request self page])) = Some run ->
    (forall rs, out = Ok rs -> exists more, rs = results ++ more) ->
    exists n : nat,
      (1 <= n <= S fuel)%nat
      /\ requests run = issued ++ map (page_request self) (page_numbers page n)
      /\ forall rs, returned run = Ok rs ->
           exists more, rs = results ++ more
             /\ per_page * (Z.of_nat n - 1) <= Z.of_nat (length more)).
  { intros out [= <-] Hout. exists 1%nat. repeat split; [lia | lia |].
    simpl. intros rs Hrs. destruct (Hout rs Hrs) as [more ->].
    exists more. split; [reflexivity | unfold per_page; lia]. }
  simpl.
  destruct (srv (page_request self page)) as [resp|e];
    [| intros H; apply (Hstop _ H); discriminate].
  destruct (negb (status resp =? 200));
    [intros H; apply (Hstop _ H); intros rs [= <-]; exists []; now rewrite app_nil_r |].
  destruct (json resp) as [data|e];
    [| intros H; apply (Hstop _ H); discriminate].
  destruct data as [|r data];
    [intros H; apply (Hstop _ H); intros rs [= <-]; exists []; now rewrite app_nil_r |].
  destruct (Z.ltb_spec (Z.of_nat (length (r :: data))) per_page) as [Hlt | Hge];
    [intros H; apply (Hstop _ H); intros rs [= <-]; now exists (r :: data) |].
  intros H. apply IH in H as (n & Hn & Hreq & Hres).
  exists (S n). repeat split; [lia | lia | |].
  - rewrite Hreq, <- app_assoc. reflexivity.
  - intros rs Hrs. destruct (Hres rs Hrs) as (more & -> & Hmore).
    exists ((r :: data) ++ more). split; [now rewrite app_assoc |].
    rewrite length_app. lia.
Qed.

(** X10.  Whatever the server answers, a run of [fetch_all_releases] that
    ends has requested pages 1, 2, ..., [n] for some [n >= 1], each once
    and in this order, under [n] different URLs; when it returns a list,
    the list holds at least [per_page] items for every page before the
    last. *)
Theorem fetch_all_releases_requests (fuel : nat) (run : fetched) :
  fetch_all_releases srv self fuel = Some run ->
  exists n : nat,
    (1 <= n <= fuel)%nat
    /\ requests run = map (page_request self) (page_numbers 1 n)
    /\ List.NoDup (map req_url (requests run))
    /\ forall rs, returned run = Ok rs ->
         per_page * (Z.of_nat n - 1) <= Z.of_nat (length rs).
Proof.
  intros H. apply fetch_loop_ends in H as (n & Hn & Hreq & Hres).
  simpl in Hreq. exists n. repeat split; try lia; [exact Hreq | |].
  - rewrite Hreq, map_map. simpl.
    apply Finite.Injective_map_NoDup; [| apply page_numbers_NoDup].
    intros p q. apply page_url_inj.
  - intros rs Hrs. destruct (Hres rs Hrs) as (more & -> & Hmore). exact Hmore.
Qed.

(** More fuel does not change a run that ended. *)
Lemma fetch_loop_more_fuel (fuel : nat) :
  forall fuel' page results issued run,
  fetch_loop srv self fuel page results issued = Some run ->
  (fuel <= fuel')%nat ->
  fetch_loop srv self fuel' page results issued = Some run.
Proof.
  induction fuel as [|fuel IH]; intros fuel' page results issued run;
    [discriminate |].
  intros H Hle. destruct fuel' as [|fuel']; [lia |].
  simpl in H |- *.
  destruct (srv (page_request self page)) as [resp|e]; [| exact H].
  destruct (negb (status resp =? 200)); [exact H |].
  destruct (json resp) as [[|r data]|e]; try exact H.
  destruct (Z.of_nat (length (r :: data)) <? per_page); [exact H |].
  apply IH; [exact H | lia].
Qed.

(** X11.  While every page comes back with status 200 and at least
    [per_page] items, the loop goes on: no bound on the number of pages
    ends it. *)
Theorem fetch_all_releases_endless (fuel : nat) :
  (forall p, 1 <= p -> exists data, serves p data
                        /\ per_page <= Z.of_nat (length data)) ->
  fetch_all_releases srv self fuel = None.
Proof.
  intros Hfull. unfold fetch_all_releases.
  generalize (@nil release) (@nil request).
  assert (H1 : 1 <= 1) by lia. revert H1. generalize 1 at 2 3.
  induction fuel as [|fuel IH]; intros page Hpage results issued;
    [reflexivity |].
  destruct (Hfull page Hpage) as (data & Hs & Hlen).
  rewrite (fetch_loop_full srv self _ _ data) by assumption.
  apply IH. lia.
Qed.

(** X12.  An exception raised by the request for page [k + 1], or raised
    when its body is decoded, after [k] full pages, reaches the caller:
    the items of the [k] pages are not returned. *)
Theorem fetch_all_releases_raises (full : list (list release)) (e : exn)
    (fuel : nat) :
  (forall (i : nat) data, full !! i = Some data ->
     serves (1 + Z.of_nat i) data /\ per_page <= Z.of_nat (length data)) ->
  srv (page_request self (1 + Z.of_nat (length full))) = Raise e
  \/ srv (page_request self (1 + Z.of_nat (length full)))
     = Ok (Response 200 (Raise e)) ->
  (length full < fuel)%nat ->
  returned <$> fetch_all_releases srv self fuel = Some (Raise e).
Proof.
  intros Hfull Hraise Hfuel. unfold fetch_all_releases.
  replace fuel with (length full + S (fuel - S (length full)))%nat by lia.
  rewrite fetch_loop_through by assumption. simpl.
  destruct Hraise as [-> | ->]; reflexivity.
Qed.

End PaginationMore.

Lemma fetch_all_releases_requests_witness :
  exists n : nat,
    (1 <= n <= 5)%nat /\
    map GitHub.req_url
      (GitHub.requests
         (GitHub.Fetched (Ok (Scenario.full_page ++ [Scenario.v1]))
            [GitHub.page_request Scenario.octocat 1;
             GitHub.page_request Scenario.octocat 2]))
    = map (GitHub.page_url Scenario.octocat) (GitHub.page_numbers 1 n).
Proof.
  destruct (fetch_all_releases_requests Scenario.two_pages Scenario.octocat 5
              (GitHub.Fetched (Ok (Scenario.full_page ++ [Scenario.v1]))
                 [GitHub.page_request Scenario.octocat 1;
                  GitHub.page_request Scenario.octocat 2]))
    as (n & Hn & Hreq & _); [reflexivity |].
  exists n. split; [exact Hn |]. rewrite Hreq, map_map. reflexivity.
Defined.

Lemma fetch_all_releases_endless_witness :
  GitHub.fetch_all_releases Scenario.endless Scenario.octocat 50 = None.
Proof.
  apply (fetch_all_releases_endless Scenario.endless Scenario.octocat 50).
  intros p _. exists Scenario.full_page. split; [reflexivity |].
  vm_compute. discriminate.
Defined.

Lemma fetch_all_releases_raises_witness :
  GitHub.returned <$> GitHub.fetch_all_releases Scenario.dropped Scenario.octocat 5
  = Some (Raise (Exn (OtherException "ClientConnectionError") "Connection reset")).
Proof.
  apply (fetch_all_releases_raises Scenario.dropped Scenario.octocat
           [Scenario.full_page]).
  - intros [|i] data Hi; [| destruct i; discriminate Hi].
    injection Hi as <-. split; [reflexivity | vm_compute; discriminate].
  - left. reflexivity.
  - simpl. lia.
Defined.

(** ** [get_recent_releases]: empty results and the width of the window *)

Section RecentMore.

Import Datetime GitHub.

Variable strptime : string -> option datetime.
Variable srv : server.
Variable self : GitHubClient.

Local Abbreviation filter_loop := (GitHub.filter_loop strptime).
Local Abbreviation get_recent_releases := (GitHub.get_recent_releases strptime srv self).

(** X13.  A first page refused with a status other than 200 and a first
    page that is empty give the same result: the empty list, returned
    without raising, whenever the cutoff is a datetime. *)
Theorem get_recent_releases_nothing (fuel : nat) (now : datetime) (n_days : Z) :
  (exists st body, srv (page_request self 1) = Ok (Response st body) /\ st <> 200)
  \/ GitHub.serves srv self 1 [] ->
  Z.abs n_days <= 999999999 ->
  in_range (now - n_days * us_per_day) = true ->
  get_recent_releases (S fuel) now n_days = Some (Ok []).
Proof.
  intros Hfirst Hdays Hrange.
  assert (Hfetch : fetch_all_releases srv self (S fuel)
                   = Some (Fetched (Ok []) [page_request self 1])).
  { unfold fetch_all_releases.
    destruct Hfirst as [(st & body & Hs & Hst) | Hs].
    - now rewrite (fetch_loop_refused srv self _ _ st body).
    - rewrite (fetch_loop_short srv self _ _ []); [reflexivity | exact Hs |].
      unfold per_page. simpl. lia. }
  unfold GitHub.get_recent_releases. rewrite Hfetch. simpl.
  unfold timedelta_days.
  destruct (Z.leb_spec (Z.abs n_days) 999999999); [| lia]. simpl.
  unfold sub. now rewrite Hrange.
Qed.

Lemma filter_loop_mono (cutoff cutoff' : datetime) (releases : list release) :
  cutoff' <= cutoff ->
  forall acc acc',
  acc `sublist_of` acc' ->
  filter_loop cutoff releases acc `sublist_of` filter_loop cutoff' releases acc'.
Proof.
  intros Hle. induction releases as [|r releases IH]; intros acc acc' Hsub;
    simpl; [exact Hsub |].
  destruct (negb (truthy (dict_get r "published_at"))); [now apply IH |].
  destruct (strptime_val strptime (dict_get r "published_at")) as [t|e];
    [| now apply IH].
  destruct (Z.leb_spec cutoff t), (Z.leb_spec cutoff' t); try lia.
  - apply IH. now apply sublist_app.
  - apply IH. now apply sublist_inserts_r.
  - now apply IH.
Qed.

(** X14.  A wider window keeps more: with the same fetched releases and
    the same current time, what is returned for [n_days] is a subsequence,
    in order, of what is returned for any [n_days' >= n_days]. *)
Theorem get_recent_releases_wider (fuel : nat) (now : datetime)
    (n_days n_days' : Z) (out out' : list filtered_release) :
  n_days <= n_days' ->
  get_recent_releases fuel now n_days = Some (Ok out) ->
  get_recent_releases fuel now n_days' = Some (Ok out') ->
  out `sublist_of` out'.
Proof.
  unfold GitHub.get_recent_releases. intros Hle.
  destruct (fetch_all_releases srv self fuel) as [[[releases|e] issued]|];
    simpl; try discriminate.
  unfold timedelta_days.
  destruct (Z.abs n_days <=? 999999999);
    [| destruct (_ && _); intros H1 H2; discriminate H1].
  destruct (Z.abs n_days' <=? 999999999);
    [| destruct (_ && _); intros H1 H2; discriminate H2]. simpl.
  unfold sub.
  destruct (in_range (now - n_days * us_per_day)); [| discriminate].
  destruct (in_range (now - n_days' * us_per_day)); [| discriminate]. simpl.
  intros [= <-] [= <-].
  apply filter_loop_mono; [unfold us_per_day; lia | reflexivity].
Qed.

End RecentMore.

Lemma get_recent_releases_nothing_witness :
  GitHub.get_recent_releases Datetime.strptime_iso
    (fun _ => Ok (GitHub.Response 403 (Ok []))) Scenario.octocat 1 Scenario.now 7
  = Some (Ok []).
Proof.
  apply (get_recent_releases_nothing Datetime.strptime_iso
           (fun _ => Ok (GitHub.Response 403 (Ok []))) Scenario.octocat 0
           Scenario.now 7).
  - left. exists 403, (Ok []). split; [reflexivity | discriminate].
  - simpl. lia.
  - reflexivity.
Defined.

Lemma get_recent_releases_wider_witness :
  [GitHub.Filtered (PStr "2024-01-10T00:00:00Z") (PStr "v1") (PStr "fix")]
  `sublist_of`
  [GitHub.Filtered (PStr "2024-01-10T00:00:00Z") (PStr "v1") (PStr "fix");
   GitHub.Filtered (PStr "2023-01-01T00:00:00Z") (PStr "v0") (PStr "init")].
Proof.
  apply (get_recent_releases_wider Datetime.strptime_iso Scenario.one_page
           Scenario.octocat 5 Scenario.now 7 400).
  - lia.
  - reflexivity.
  - reflexivity.
Defined.

(** ** [stream_summary]: what is not caught, and what the caller sees *)

Section SummarizerMore.

Import Gpt.

Local Abbreviation fragment := (fun v : pyval => py_or v (PStr "")).

Local Abbreviation error_text := (fun (self : BaseGPTClient) (e : exn) =>
  nl +:+ "Error calling " +:+ display_name (cls self) +:+ " API: " +:+ exn_str e).

(** X15.  Either backend's [stream_summary] sends one request, and a
    failure of the backend on it that is no [Exception] (a cancellation, a
    keyboard interrupt) is not turned into text: the fragments of the
    chunks delivered before it are yielded, no error fragment follows, and
    the exception reaches the caller. *)
Theorem stream_summary_lets_through (self : BaseGPTClient) (be : backend)
    (releases : string) (n_days : Z) (language : string) :
  exists rq,
    sent (stream_summary self be releases n_days language) = [rq]
    /\ forall (vs : list pyval) (e : exn),
         fails (be rq) vs e ->
         is_Exception e = false ->
         stream_summary self be releases n_days language
         = Run [rq] (map fragment vs) (Some e).
Proof.
  rewrite stream_summary_unfold. eexists.
  split; [apply try_stream_sent |]. intros vs e Hf He.
  unfold try_stream.
  inversion Hf as [e' Hbe | r vs' e' Hb Hbe]; subst vs e'.
  - simpl. now rewrite He.
  - rewrite (iterate_breaks _ _ _ Hb). now rewrite He.
Qed.

Lemma fragment_fragment (v : pyval) : fragment (fragment v) = fragment v.
Proof. unfold py_or. destruct (truthy v) eqn:E; [now rewrite E | reflexivity]. Qed.

Lemma completes_chunks_then (vs : list pyval) :
  completes (chunks_then (map chunk_of vs) Done) vs.
Proof.
  induction vs as [|v vs IH]; simpl; [constructor |].
  now apply completes_chunk.
Qed.

(** X16.  A failure cannot be told from content: when the backend fails
    with an [Exception] after some chunks, the run is the very run of a
    backend that delivers the same fragments, then the error text as one
    more chunk, and ends normally. *)
Theorem stream_summary_error_is_content (self : BaseGPTClient) (be : backend)
    (releases : string) (n_days : Z) (language : string)
    (rq : chat_request) (vs : list pyval) (e : exn) :
  sent (stream_summary self be releases n_days language) = [rq] ->
  fails (be rq) vs e ->
  is_Exception e = true ->
  stream_summary self be releases n_days language
  = stream_summary self
      (fun _ => Ok (chunks_then
                      (map chunk_of (map fragment vs ++ [PStr (error_text self e)]))
                      Done))
      releases n_days language.
Proof.
  intros Hsent Hf He.
  rewrite !stream_summary_unfold in Hsent |- *.
  rewrite try_stream_sent in Hsent. injection Hsent as Hrq. rewrite Hrq.
  rewrite (try_stream_fails _ _ _ vs e Hf He).
  rewrite stream_summary_unfold, Hrq.
  erewrite try_stream_completes;
    [| reflexivity | apply completes_chunks_then].
  rewrite map_app, map_map. simpl. do 2 f_equal.
  apply map_ext. intros v. now rewrite fragment_fragment.
Qed.

(** X17.  A client from the factory asks for the model the factory chose:
    [gpt-4o] for OpenAI whatever the [model] argument, and for ZhipuAI the
    [model] argument, or [glm-4-flash] when it is empty; the client keeps
    the API key it was given. *)
Theorem create_gpt_client_model (name key model : string) (c : BaseGPTClient)
    (be : backend) (releases : string) (n_days : Z) (language : string) :
  create_gpt_client name key model = Ok c ->
  api_key c = key
  /\ map rq_model (sent (stream_summary c be releases n_days language))
     = [match cls c with
        | OpenAI => "gpt-4o"
        | ZhipuAI => if String.eqb model "" then "glm-4-flash" else model
        end].
Proof.
  unfold create_gpt_client.
  destruct (String.eqb (lower name) "openai").
  - intros [= <-]. split; [reflexivity |].
    now rewrite stream_summary_unfold, try_stream_sent.
  - destruct (String.eqb (lower name) "zhipuai"); [| discriminate].
    intros [= <-]. split; [reflexivity |].
    rewrite stream_summary_unfold, try_stream_sent. simpl.
    now destruct (String.eqb model "").
Qed.

End SummarizerMore.

Lemma stream_summary_lets_through_witness :
  Gpt.raised
    (Gpt.stream_summary (Gpt.OpenAIClient "key")
       (fun _ => Ok (Gpt.Chunks (Gpt.chunk_of (PStr "v1"))
                       (Gpt.Broken (Exn (BaseOnly "CancelledError") ""))))
       "[]" 7 "English")
  = Some (Exn (BaseOnly "CancelledError") "").
Proof.
  destruct (stream_summary_lets_through (Gpt.OpenAIClient "key")
              (fun _ => Ok (Gpt.Chunks (Gpt.chunk_of (PStr "v1"))
                              (Gpt.Broken (Exn (BaseOnly "CancelledError") ""))))
              "[]" 7 "English") as (rq & _ & H).
  rewrite (H [PStr "v1"] (Exn (BaseOnly "CancelledError") "")).
  - reflexivity.
  - apply Gpt.fails_stream.
    apply (Gpt.breaks_later (Gpt.chunk_of (PStr "v1")) _ _ _ _ eq_refl).
    apply Gpt.breaks_iter.
  - reflexivity.
Defined.

Lemma stream_summary_error_is_content_witness :
  Gpt.stream_summary (Gpt.ZhipuAIClient "key" "glm-4-flash") Scenario.flaky
    "[]" 7 "English"
  = Gpt.stream_summary (Gpt.ZhipuAIClient "key" "glm-4-flash")
      (fun _ => Ok (Gpt.chunks_then
                      [Gpt.chunk_of (PStr "Release "); Gpt.chunk_of (PStr "");
                       Gpt.chunk_of
                         (PStr (nl +:+ "Error calling ZhipuAI API: Connection error."))]
                      Gpt.Done))
      "[]" 7 "English".
Proof.
  rewrite (stream_summary_error_is_content (Gpt.ZhipuAIClient "key" "glm-4-flash")
             Scenario.flaky "[]" 7 "English" _ [PStr "Release "; PNone]
             (Exn (OtherException "APIConnectionError") "Connection error.")
             eq_refl).
  - reflexivity.
  - apply Gpt.fails_stream.
    apply (Gpt.breaks_later (Gpt.chunk_of (PStr "Release ")) _ _ _ _ eq_refl).
    apply (Gpt.breaks_later (Gpt.chunk_of PNone) _ _ _ _ eq_refl).
    apply Gpt.breaks_iter.
  - reflexivity.
Defined.

Lemma create_gpt_client_model_witness :
  map Gpt.rq_model
    (Gpt.sent (Gpt.stream_summary (Gpt.ZhipuAIClient "key" "glm-4-flash")
                 Scenario.steady "[]" 7 "English"))
  = ["glm-4-flash"].
Proof.
  apply (create_gpt_client_model "ZhipuAI" "key" "" _ Scenario.steady "[]" 7
           "English" eq_refl).
Defined.

(** ** The summarize action of [main] *)

Section SummarizeFacts.

Import Datetime GitHub Gpt App Main.

Variable strptime : string -> option datetime.
Variable dumps : list filtered_release -> string.
Variable srv : server.
Variable be : backend.

Local Abbreviation summarize_repo := (Main.summarize_repo strptime dumps srv be).
Local Abbreviation summarize_loop := (Main.summarize_loop strptime dumps srv be).

Local Abbreviation error_text := (fun (self : BaseGPTClient) (e : exn) =>
  nl +:+ "Error calling " +:+ display_name (cls self) +:+ " API: " +:+ exn_str e).

Lemma fetch_loop_polite (fuel : nat) :
  polite_server srv ->
  forall self page results issued run e,
  fetch_loop srv self fuel page results issued = Some run ->
  returned run = Raise e -> is_Exception e = true.
Proof.
  intros Hsrv self.
  induction fuel as [|fuel IH]; intros page results issued run e; [discriminate |].
  simpl. specialize (Hsrv (page_request self page)).
  destruct (srv (page_request self page)) as [resp|e'].
  - destruct (negb (status resp =? 200)); [intros [= <-]; discriminate |].
    destruct (json resp) as [[|r data]|e''].
    + intros [= <-]; discriminate.
    + destruct (Z.of_nat (length (r :: data)) <? per_page);
        [intros [= <-]; discriminate | apply IH].
    + intros [= <-] [= <-]. exact Hsrv.
  - intros [= <-] [= <-]. exact Hsrv.
Qed.

Lemma get_recent_releases_polite (self : GitHubClient) (fuel : nat)
    (now : datetime) (n_days : Z) (e : exn) :
  polite_server srv ->
  get_recent_releases strptime srv self fuel now n_days = Some (Raise e) ->
  is_Exception e = true.
Proof.
  intros Hsrv. unfold get_recent_releases, fetch_all_releases.
  destruct (fetch_loop srv self fuel 1 [] []) as [run|] eqn:Hrun; [| discriminate].
  destruct (returned run) as [releases|e'] eqn:Hret; simpl.
  - unfold timedelta_days. destruct (Z.abs n_days <=? 999999999); simpl;
      [| destruct (_ && _); now intros [= <-]].
    unfold sub. destruct (in_range _); simpl; [discriminate | now intros [= <-]].
  - intros [= <-]. exact (fetch_loop_polite _ Hsrv _ _ _ _ _ _ Hrun Hret).
Qed.

Lemma iterate_polite (r : response) :
  polite_response r ->
  exists texts,
    iterate r = (map PStr texts, None)
    \/ exists e, iterate r = (map PStr texts, Some e) /\ is_Exception e = true.
Proof.
  induction r as [c rest IH | | e]; simpl.
  - destruct (first_content c) as [v|e] eqn:Hc.
    + intros [Hv Hrest]. destruct (IH Hrest) as [texts Hit].
      exists (text_of v :: texts). rewrite fragment_text by exact Hv.
      destruct Hit as [-> | (e & -> & He)]; [now left | right; now exists e].
    + intros _. exists []. right. exists e. split; [reflexivity |].
      unfold first_content in Hc. destruct (choices c); [| discriminate].
      now injection Hc as <-.
  - intros _. exists []. now left.
  - intros He. exists []. right. now exists e.
Qed.

Lemma stream_summary_polite (self : BaseGPTClient) (releases : string)
    (n_days : Z) (language : string) :
  polite_backend be ->
  exists rq texts,
    stream_summary self be releases n_days language = Run [rq] (map PStr texts) None.
Proof.
  intros Hbe. rewrite stream_summary_unfold.
  match goal with |- context [try_stream be ?q ?h] => set (rq := q) end.
  exists rq. specialize (Hbe rq). unfold try_stream.
  destruct (be rq) as [r|e].
  - destruct (iterate_polite r Hbe) as [texts [-> | (e & -> & He)]].
    + now exists texts.
    + rewrite He. exists (texts ++ [error_text self e]). now rewrite map_app.
  - rewrite Hbe. now exists [error_text self e].
Qed.

Lemma consume_texts (texts : list string) :
  forall acc, consume acc (map PStr texts) = (displays acc texts, None).
Proof.
  induction texts as [|t texts IH]; intros acc; simpl; [reflexivity |].
  now rewrite IH.
Qed.

Lemma displays_snoc (texts : list string) (t : string) :
  forall acc,
  displays acc (texts ++ [t])
  = displays acc texts ++ [PlaceholderMarkdown (acc +:+ join texts +:+ t)].
Proof.
  induction texts as [|x texts IH]; intros acc; simpl; [reflexivity |].
  rewrite IH. unfold join. simpl. now rewrite !app_assoc_str.
Qed.

Lemma no_header_displays (texts : list string) :
  forall acc, List.filter is_header (displays acc texts) = [].
Proof. induction texts as [|t texts IH]; intros acc; simpl; [reflexivity | apply IH]. Qed.

Lemma no_header_chat (rqs : list chat_request) :
  List.filter is_header (map ChatCreate rqs) = [].
Proof. induction rqs as [|rq rqs IH]; simpl; [reflexivity | exact IH]. Qed.

Lemma is_header_header (repo_str : string) : is_header (header repo_str) = true.
Proof. unfold is_header, header. apply startswith_app. Qed.

(** [parse_repo_input] raises nothing but [ValueError]. *)
Lemma parse_repo_input_ValueError (input : string) (e : exn) :
  Repo.parse_repo_input input = Raise e -> exn_cls e = ValueError.
Proof.
  unfold Repo.parse_repo_input.
  destruct (startswith Repo.url_prefix (strip input)) eqn:Hs.
  - apply startswith_inv in Hs as [rest ->]. rewrite re_match_pattern.
    destruct (fst (span "/" rest)); [now intros [= <-] |].
    destruct (snd (span "/" rest)) as [|c rest2]; [now intros [= <-] |].
    destruct (ascii_eqb "/" c); [| now intros [= <-]].
    destruct (fst (span "/" rest2)); [now intros [= <-] | discriminate].
  - destruct (negb (contains "/" (strip input))); [now intros [= <-] |].
    destruct (split1 "/" (strip input)) as [|x [|y [|z l]]];
      try discriminate; now intros [= <-].
Qed.

(** One turn on a polite server and backend logs one header and lets no
    exception out. *)
Lemma summarize_repo_polite (gpt_client : BaseGPTClient) (fuel : nat)
    (now : datetime) (n_days : Z) (language repo_str : string)
    (evs : list event) (fin : option exn) :
  polite_server srv -> polite_backend be ->
  summarize_repo gpt_client fuel now n_days language repo_str = Some (evs, fin) ->
  fin = None /\ List.filter is_header evs = [header repo_str].
Proof.
  intros Hsrv Hbe. unfold Main.summarize_repo.
  assert (Hh := is_header_header repo_str).
  set (h := header repo_str) in *.
  destruct (Repo.parse_repo_input repo_str) as [[u r]|e] eqn:Hp.
  - destruct (get_recent_releases strptime srv (GitHub.new u r) fuel now n_days)
      as [[[|x releases]|e]|] eqn:Hget; [| | | discriminate].
    + intros [= <- <-]. split; [reflexivity |]. simpl; rewrite ?Hh; reflexivity.
    + destruct (stream_summary_polite gpt_client (dumps (x :: releases))
                  n_days language Hbe) as (rq & texts & ->).
      simpl sent. simpl yielded. simpl raised. rewrite consume_texts.
      intros [= <- <-]. split; [reflexivity |].
      simpl. rewrite ?Hh, List.filter_app, no_header_displays. reflexivity.
    + rewrite (get_recent_releases_polite _ _ _ _ _ Hsrv Hget).
      destruct (str_contains "403" (exn_str e)); intros [= <- <-];
        (split; [reflexivity |]); simpl; rewrite ?Hh; reflexivity.
  - rewrite (parse_repo_input_ValueError _ _ Hp).
    intros [= <- <-]. split; [reflexivity |]. simpl; rewrite ?Hh; reflexivity.
Qed.

(** One turn of the loop either ends the fetch or meets a full page. *)
Lemma fetch_loop_total (self : GitHubClient) (d : nat) :
  forall (fuel : nat) (page : Z) results issued,
  ~ full_page_at srv self (page + Z.of_nat d) ->
  (d < fuel)%nat ->
  exists run, fetch_loop srv self fuel page results issued = Some run.
Proof.
  induction d as [|d IH]; intros fuel page results issued Hend Hfuel;
    (destruct fuel as [|fuel]; [lia |]); simpl;
    destruct (srv (page_request self page)) as [[st [data|e]]|e] eqn:Hs;
    simpl; try (eexists; reflexivity);
    destruct (Z.eqb_spec st 200) as [-> | Hst]; simpl;
    try (eexists; reflexivity);
    destruct data as [|x data]; try (eexists; reflexivity);
    destruct (Z.ltb_spec (Z.of_nat (length (x :: data))) per_page);
    try (eexists; reflexivity).
  - exfalso. apply Hend. rewrite Z.add_0_r. now exists (x :: data).
  - apply IH; [| lia].
    replace (page + 1 + Z.of_nat d) with (page + Z.of_nat (S d)) by lia.
    exact Hend.
Qed.

Lemma get_recent_releases_total (self : GitHubClient) (fuel : nat)
    (now : datetime) (n_days : Z) :
  listings_end srv fuel ->
  exists res, get_recent_releases strptime srv self fuel now n_days = Some res.
Proof.
  intros Hend. destruct (Hend self) as (p & Hp & Hnot).
  unfold get_recent_releases, fetch_all_releases.
  destruct (fetch_loop_total self (p - 1) fuel 1 [] []) as [run ->];
    [| lia | now eexists].
  now replace (1 + Z.of_nat (p - 1)) with (Z.of_nat p) by lia.
Qed.

Lemma summarize_repo_total (gpt_client : BaseGPTClient) (fuel : nat)
    (now : datetime) (n_days : Z) (language repo_str : string) :
  listings_end srv fuel ->
  exists res, summarize_repo gpt_client fuel now n_days language repo_str = Some res.
Proof.
  intros Hend. unfold Main.summarize_repo.
  destruct (Repo.parse_repo_input repo_str) as [[u r]|e].
  - destruct (get_recent_releases_total (GitHub.new u r) fuel now n_days Hend)
      as [res ->].
    destruct res as [[|x releases]|e]; [now eexists | |].
    + cbv zeta.
      destruct (consume "" _) as [evs [e|]]; [now eexists |].
      destruct (raised _); now eexists.
    + destruct (is_Exception e); [destruct (str_contains "403" (exn_str e)) |];
        now eexists.
  - destruct (exn_cls e); now eexists.
Qed.

(** X18.  One repository does not stop the others: when the server and
    the backend raise nothing but [Exception]s, the backend delivers
    strings or [None], and every listing has a page that is not full among
    its first [fuel] pages, the loop ends, no exception leaves it, and
    every repository of the list gets its header, in the order of the
    list: an entry that does not parse, a fetch that fails or finds
    nothing, and a backend failure all let the loop go on. *)
Theorem summarize_loop_every_repo (gpt_client : BaseGPTClient) (fuel : nat)
    (clock : nat -> datetime) (n_days : Z) (language : string)
    (repos : list string) (i : nat) :
  polite_server srv -> polite_backend be -> listings_end srv fuel ->
  exists evs,
    summarize_loop gpt_client fuel clock n_days language i repos = Some (evs, None)
    /\ List.filter is_header evs = map header repos.
Proof.
  intros Hsrv Hbe Hend. revert i.
  induction repos as [|repo_str repos IH]; intros i; simpl.
  - now exists [].
  - destruct (summarize_repo_total gpt_client fuel (clock i) n_days language
                repo_str Hend) as [[evs1 fin1] H1].
    rewrite H1.
    destruct (summarize_repo_polite _ _ _ _ _ _ _ _ Hsrv Hbe H1) as [-> Hh1].
    destruct (IH (S i)) as (evs2 & -> & Hh2).
    exists (evs1 ++ evs2). split; [reflexivity |].
    now rewrite List.filter_app, Hh1, Hh2.
Qed.

Lemma chat_requests_app (evs evs' : list event) :
  chat_requests (evs ++ evs') = chat_requests evs ++ chat_requests evs'.
Proof. unfold chat_requests. apply flat_map_app. Qed.

Lemma chat_requests_consume (fragments : list pyval) :
  forall acc, chat_requests (fst (consume acc fragments)) = [].
Proof.
  induction fragments as [|v fragments IH]; intros acc; simpl; [reflexivity |].
  destruct v; try reflexivity.
  specialize (IH (acc +:+ s)).
  destruct (consume (acc +:+ s) fragments) as [evs fin]. exact IH.
Qed.

Lemma chat_requests_sent (rqs : list chat_request) :
  chat_requests (map ChatCreate rqs) = rqs.
Proof. induction rqs as [|rq rqs IH]; simpl; [reflexivity | now f_equal]. Qed.

(** X19.  The backend is asked only for a repository that has recent
    releases.  A turn whose entry does not parse, whose fetch raises, or
    whose fetch finds nothing recent calls no backend; a turn that found
    releases calls [create] once, and the user message is the prompt built
    from the serialized releases, [n_days] and the language. *)
Theorem summarize_repo_chat (gpt_client : BaseGPTClient) (fuel : nat)
    (now : datetime) (n_days : Z) (language repo_str : string)
    (evs : list event) (fin : option exn) :
  summarize_repo gpt_client fuel now n_days language repo_str = Some (evs, fin) ->
  ((exists e, Repo.parse_repo_input repo_str = Raise e) -> chat_requests evs = [])
  /\ (forall u r,
        Repo.parse_repo_input repo_str = Ok (u, r) ->
        get_recent_releases strptime srv (GitHub.new u r) fuel now n_days = Some (Ok [])
        \/ (exists e, get_recent_releases strptime srv (GitHub.new u r) fuel now n_days
                      = Some (Raise e)) ->
        chat_requests evs = [])
  /\ (forall u r releases,
        Repo.parse_repo_input repo_str = Ok (u, r) ->
        get_recent_releases strptime srv (GitHub.new u r) fuel now n_days
        = Some (Ok releases) ->
        releases <> [] ->
        exists rq,
          chat_requests evs = [rq]
          /\ nth_error (rq_messages rq) 1
             = Some (Message "user"
                       (generate_prompt gpt_client (dumps releases) n_days language))).
Proof.
  unfold Main.summarize_repo. intros H. repeat apply conj.
  - intros [e He]. rewrite He in H.
    destruct (exn_cls e); injection H as <- _; reflexivity.
  - intros u r Hp Hget. rewrite Hp in H.
    destruct Hget as [Hget | [e Hget]]; rewrite Hget in H.
    + now injection H as <- _.
    + destruct (is_Exception e); [destruct (str_contains "403" (exn_str e)) |];
        now injection H as <- _.
  - intros u r releases Hp Hget Hne. rewrite Hp, Hget in H.
    destruct releases as [|x releases]; [congruence |].
    cbv zeta in H. rewrite stream_summary_unfold in H.
    match type of H with context [try_stream be ?q ?h] =>
      set (rq := q) in *; set (handler := h) in * end.
    exists rq. split; [| reflexivity].
    rewrite try_stream_sent in H.
    pose proof (chat_requests_consume (yielded (try_stream be rq handler)) "") as Hc.
    destruct (consume "" (yielded (try_stream be rq handler))) as [evs' [e|]].
    + injection H as <- _. unfold chat_requests, header in *. simpl in Hc |- *.
      now rewrite Hc.
    + destruct (raised (try_stream be rq handler)); injection H as <- _;
        unfold chat_requests, header in *; simpl in Hc |- *;
        rewrite ?flat_map_app, Hc; reflexivity.
Qed.

(** X20.  A backend failure ends on the screen: a turn that found
    releases sends one request, and when the backend fails on it with an
    [Exception] after some chunks whose contents are strings or [None],
    the placeholder shows the growing summary and, last, the partial
    summary followed by the error text; the turn then ends like a
    successful one. *)
Theorem summarize_repo_shows_error (gpt_client : BaseGPTClient) (fuel : nat)
    (now : datetime) (n_days : Z) (language repo_str u r : string)
    (releases : list filtered_release) :
  Repo.parse_repo_input repo_str = Ok (u, r) ->
  get_recent_releases strptime srv (GitHub.new u r) fuel now n_days
  = Some (Ok releases) ->
  releases <> [] ->
  exists rq,
    sent (stream_summary gpt_client be (dumps releases) n_days language) = [rq]
    /\ forall (vs : list pyval) (e : exn),
         fails (be rq) vs e ->
         is_Exception e = true ->
         Forall (fun v => v = PNone \/ exists s, v = PStr s) vs ->
         summarize_repo gpt_client fuel now n_days language repo_str
         = Some ([header repo_str;
                  StInfo ("Fetching GitHub releases for " +:+ repo_str +:+ "...");
                  StInfo "Generating summary from GPT...";
                  StEmpty;
                  ChatCreate rq]
                 ++ displays "" (map text_of vs)
                 ++ [PlaceholderMarkdown
                       (join (map text_of vs) +:+ error_text gpt_client e);
                     StMarkdown "---"],
                 None).
Proof.
  intros Hp Hget Hne.
  unfold Main.summarize_repo. rewrite Hp, Hget.
  destruct releases as [|x releases]; [congruence |]. cbv zeta.
  rewrite stream_summary_unfold. eexists.
  split; [apply try_stream_sent |]. intros vs e Hf He Hvs.
  rewrite (try_stream_fails _ _ _ vs e Hf He).
  cbn [sent yielded raised].
  assert (Hmap : map (fun v => py_or v (PStr "")) vs
                 ++ [PStr (error_text gpt_client e)]
                 = map PStr (map text_of vs ++ [error_text gpt_client e])).
  { rewrite map_app, map_map. f_equal. apply map_ext_in. intros v Hv.
    apply fragment_text.
    rewrite Forall_forall in Hvs. apply Hvs. now apply list_elem_of_In. }
  rewrite Hmap, consume_texts, displays_snoc.
  cbn [map app]. rewrite <- !app_assoc. reflexivity.
Qed.

(** X21.  The action ends early, with one error message and nothing else,
    when the session has no repository stored, and, when it has some, when
    the provider name is neither [openai] nor [zhipuai] up to case. *)
Theorem summarize_all_early_exits (session_id gpt_provider gpt_api_key : string)
    (fuel : nat) (clock : nat -> datetime) (n_days : Z) (language : string)
    (st : fs) :
  (stored st session_id = [] ->
     fst (summarize_all strptime dumps srv be session_id gpt_provider gpt_api_key
            fuel clock n_days language st)
     = Some ([StError "No repositories saved in file."], None))
  /\ (stored st session_id <> [] ->
       same_ignoring_case gpt_provider "openai" = false ->
       same_ignoring_case gpt_provider "zhipuai" = false ->
       fst (summarize_all strptime dumps srv be session_id gpt_provider gpt_api_key
              fuel clock n_days language st)
       = Some ([StError ("Error creating GPT client: Unsupported GPT provider: "
                           +:+ lower gpt_provider)], None)).
Proof.
  unfold summarize_all.
  pose proof (read_repos_stored session_id st) as Hread.
  destruct (read_repos session_id st) as [repos st']. simpl in Hread. subst repos.
  split.
  - now intros ->.
  - intros Hne Ho Hz.
    destruct (stored st session_id) as [|x l]; [congruence |].
    unfold create_gpt_client.
    rewrite !lower_same_ignoring_case, Ho, Hz by reflexivity. reflexivity.
Qed.

End SummarizeFacts.

Lemma polite_server_github : Main.polite_server Scenario.github.
Proof.
  intros rq. unfold Scenario.github.
  destruct (String.eqb _ _); exact I.
Qed.

Lemma polite_backend_flaky : Main.polite_backend Scenario.flaky.
Proof.
  intros rq. simpl. repeat split; eauto.
Qed.

Lemma listings_end_github : Main.listings_end Scenario.github 5.
Proof.
  intros self. exists 1%nat. split; [lia |].
  intros (data & Hs & Hlen). unfold GitHub.serves, Scenario.github in Hs.
  destruct (String.eqb _ _); [| discriminate Hs].
  injection Hs as <-. vm_compute in Hlen. now apply Hlen.
Qed.

Lemma summarize_loop_every_repo_witness :
  exists evs,
    Main.summarize_loop Datetime.strptime_iso Scenario.dumps_versions
      Scenario.github Scenario.flaky (Gpt.OpenAIClient "key") 5
      (fun _ => Scenario.now) 7 "English" 0 ["nonsense"; "octo/none"; "octo/cat"]
    = Some (evs, None)
    /\ List.filter Main.is_header evs
       = map Main.header ["nonsense"; "octo/none"; "octo/cat"].
Proof.
  exact (summarize_loop_every_repo Datetime.strptime_iso Scenario.dumps_versions
           Scenario.github Scenario.flaky (Gpt.OpenAIClient "key") 5
           (fun _ => Scenario.now) 7 "English"
           ["nonsense"; "octo/none"; "octo/cat"] 0
           polite_server_github polite_backend_flaky listings_end_github).
Defined.

Lemma summarize_repo_chat_witness :
  Main.chat_requests
    [Main.header "octo/none";
     Main.StInfo "Fetching GitHub releases for octo/none...";
     Main.StError "No releases found or GitHub API returned 403. Skipping summarization for this repository."]
  = [].
Proof.
  destruct (summarize_repo_chat Datetime.strptime_iso Scenario.dumps_versions
              Scenario.github Scenario.flaky (Gpt.OpenAIClient "key") 5
              Scenario.now 7 "English" "octo/none" _ None eq_refl)
    as (_ & H & _).
  apply (H "octo" "none" eq_refl). left. reflexivity.
Defined.

Lemma summarize_repo_shows_error_witness :
  Main.summarize_repo Datetime.strptime_iso Scenario.dumps_versions
    Scenario.github Scenario.flaky (Gpt.OpenAIClient "key") 5 Scenario.now 7
    "English" "octo/cat"
  = Some ([Main.header "octo/cat";
           Main.StInfo "Fetching GitHub releases for octo/cat...";
           Main.StInfo "Generating summary from GPT...";
           Main.StEmpty;
           Main.ChatCreate
             (Gpt.ChatRequest "gpt-4o"
                [Gpt.Message "system" "You are a seasoned software engineer.";
                 Gpt.Message "user"
                   (Gpt.generate_prompt (Gpt.OpenAIClient "key")
                      ("v1" +:+ nl) 7 "English")]
                true (Some 0%Q));
           Main.PlaceholderMarkdown "Release ";
           Main.PlaceholderMarkdown "Release ";
           Main.PlaceholderMarkdown
             ("Release " +:+ nl +:+ "Error calling OpenAI API: Connection error.");
           Main.StMarkdown "---"],
          None).
Proof.
  destruct (summarize_repo_shows_error Datetime.strptime_iso
              Scenario.dumps_versions Scenario.github Scenario.flaky
              (Gpt.OpenAIClient "key") 5 Scenario.now 7 "English" "octo/cat"
              "octo" "cat"
              [GitHub.Filtered (PStr "2024-01-10T00:00:00Z") (PStr "v1") (PStr "fix")]
              eq_refl eq_refl) as (rq & Hsent & H); [discriminate |].
  rewrite (H [PStr "Release "; PNone]
             (Exn (OtherException "APIConnectionError") "Connection error.")).
  - vm_compute in Hsent. injection Hsent as <-. reflexivity.
  - apply Gpt.fails_stream.
    apply (Gpt.breaks_later (Gpt.chunk_of (PStr "Release ")) _ _ _ _ eq_refl).
    apply (Gpt.breaks_later (Gpt.chunk_of PNone) _ _ _ _ eq_refl).
    apply Gpt.breaks_iter.
  - reflexivity.
  - repeat (apply List.Forall_cons;
              [first [left; reflexivity | right; eexists; reflexivity] |]).
    apply List.Forall_nil.
Defined.

Lemma summarize_all_early_exits_witness :
  fst (Main.summarize_all Datetime.strptime_iso Scenario.dumps_versions
         Scenario.github Scenario.flaky "s2" "OpenAI" "key" 5
         (fun _ => Scenario.now) 7 "English" Scenario.three_repos)
  = Some ([Main.StError "No repositories saved in file."], None)
  /\ fst (Main.summarize_all Datetime.strptime_iso Scenario.dumps_versions
            Scenario.github Scenario.flaky "s1" "Claude" "key" 5
            (fun _ => Scenario.now) 7 "English" Scenario.three_repos)
     = Some ([Main.StError "Error creating GPT client: Unsupported GPT provider: claude"],
             None).
Proof.
  split.
  - apply (summarize_all_early_exits Datetime.strptime_iso
             Scenario.dumps_versions Scenario.github Scenario.flaky "s2" "OpenAI"
             "key" 5 (fun _ => Scenario.now) 7 "English" Scenario.three_repos).
    vm_compute. reflexivity.
  - apply (summarize_all_early_exits Datetime.strptime_iso
             Scenario.dumps_versions Scenario.github Scenario.flaky "s1" "Claude"
             "key" 5 (fun _ => Scenario.now) 7 "English" Scenario.three_repos);
      [vm_compute; discriminate | reflexivity | reflexivity].
Defined.

(** ** Stored entries parse again *)

Section StoredEntries.

Import Repo.

Local Abbreviation slash := "/"%char.

Lemma lstrip_app_clean (u t : string) (c : ascii) :
  isspace c = false -> lstrip (u +:+ String c t) = lstrip u +:+ String c t.
Proof.
  intros Hc. induction u as [|d u IH]; push_app.
  - now rewrite Hc.
  - destruct (isspace d); [exact IH | reflexivity].
Qed.

Lemma rstrip_cons_clean (c : ascii) (r : string) :
  isspace c = false -> rstrip (String c r) = String c (rstrip r).
Proof. intros Hc. simpl. destruct (rstrip r); [now rewrite Hc | reflexivity]. Qed.

Lemma rstrip_app_kept (a t : string) :
  rstrip t <> "" -> rstrip (a +:+ t) = a +:+ rstrip t.
Proof.
  intros Ht. induction a as [|d a IH]; push_app; [reflexivity |].
  rewrite IH. destruct (a +:+ rstrip t) eqn:E; [| reflexivity].
  destruct a; [| discriminate E]. now rewrite app_Empty in E.
Qed.

Lemma strip_join (u r : string) :
  strip (u +:+ String slash r) = lstrip u +:+ String slash (rstrip r).
Proof.
  unfold strip. rewrite lstrip_app_clean by reflexivity.
  rewrite rstrip_app_kept; rewrite rstrip_cons_clean by reflexivity;
    [reflexivity | discriminate].
Qed.

Lemma contains_lstrip (c : ascii) (s : string) :
  contains c s = false -> contains c (lstrip s) = false.
Proof.
  induction s as [|d s IH]; simpl; [reflexivity |]. intros H.
  apply orb_false_elim in H as [Hd Hs].
  destruct (isspace d); [now apply IH | simpl; now rewrite Hd, Hs].
Qed.

Lemma contains_rstrip (c : ascii) (s : string) :
  contains c s = false -> contains c (rstrip s) = false.
Proof.
  induction s as [|d s IH]; simpl; [reflexivity |]. intros H.
  apply orb_false_elim in H as [Hd Hs]. specialize (IH Hs).
  destruct (rstrip s) eqn:E.
  - destruct (isspace d); simpl; [reflexivity | now rewrite Hd].
  - simpl in IH |- *. now rewrite Hd, IH.
Qed.

Lemma first_cut_unique (c : ascii) (a b a' b' : string) :
  contains c a = false -> contains c a' = false ->
  a +:+ String c b = a' +:+ String c b' -> a = a' /\ b = b'.
Proof.
  intros Ha Ha' E.
  assert (H := span_unique c a (String c b) Ha (or_intror (ex_intro _ b eq_refl))).
  rewrite E, (span_unique c a' (String c b') Ha') in H by (right; now eexists).
  now injection H as -> ->.
Qed.

(** What a successful parse returns, by the branch taken. *)
Lemma parse_repo_input_shape (input u r : string) :
  parse_repo_input input = Ok (u, r) ->
  contains slash u = false
  /\ (startswith url_prefix (strip input) = true -> contains slash r = false)
  /\ (startswith url_prefix (strip input) = false ->
      strip input = u +:+ String slash r).
Proof.
  unfold parse_repo_input.
  destruct (startswith url_prefix (strip input)) eqn:Hs.
  - destruct (startswith_inv _ _ Hs) as [rest ->]. rewrite re_match_pattern.
    pose proof (span_clean slash rest) as Hu.
    destruct (fst (span slash rest)) as [|c0 o]; [discriminate |].
    destruct (snd (span slash rest)) as [|c rest2]; [discriminate |].
    destruct (ascii_eqb slash c); [| discriminate].
    pose proof (span_clean slash rest2) as Hr.
    destruct (fst (span slash rest2)) as [|c1 n]; [discriminate |].
    intros [= <- <-]. repeat split; [exact Hu | now intros _ | discriminate].
  - destruct (negb (contains slash (strip input))); [discriminate |].
    destruct (split1 slash (strip input)) as [|x [|y [|z l]]] eqn:Es;
      try discriminate.
    intros [= <- <-]. apply split1_join in Es as [Es Hx].
    repeat split; [exact Hx | discriminate | now intros _].
Qed.

(** X22.  Every string [add_repo] stores parses again: for every input
    that parses to [(username, repo)], the string [username/repo] parses,
    to [username] without its leading whitespace and [repo] without its
    trailing whitespace; for an input in the bare form these are
    [username] and [repo] themselves. *)
Theorem stored_entry_parses (input u r : string) :
  parse_repo_input input = Ok (u, r) ->
  parse_repo_input (u +:+ "/" +:+ r) = Ok (lstrip u, rstrip r)
  /\ (startswith url_prefix (strip input) = false ->
      lstrip u = u /\ rstrip r = r).
Proof.
  intros Hp. destruct (parse_repo_input_shape _ _ _ Hp) as (Hu & Hurl & Hbare).
  assert (Hfix : startswith url_prefix (strip input) = false ->
                 lstrip u = u /\ rstrip r = r).
  { intros Hs. specialize (Hbare Hs).
    pose proof (strip_idem input) as Hid.
    rewrite Hbare, strip_join in Hid.
    apply first_cut_unique in Hid as [-> ->];
      [now split | now apply contains_lstrip | exact Hu]. }
  split; [| exact Hfix].
  change (u +:+ "/" +:+ r) with (u +:+ String slash r).
  unfold parse_repo_input. rewrite strip_join.
  assert (Hnot : startswith url_prefix (lstrip u +:+ String slash (rstrip r)) = false).
  { destruct (startswith url_prefix (strip input)) eqn:Hs.
    - apply bare_not_url; [now apply contains_lstrip |].
      now apply contains_rstrip, Hurl.
    - destruct (Hfix eq_refl) as [-> ->]. now rewrite <- (Hbare eq_refl). }
  rewrite Hnot, contains_app. simpl contains. rewrite orb_true_r. simpl negb.
  rewrite split1_cut; [reflexivity | now apply contains_lstrip].
Qed.

Lemma stored_entry_parses_witness :
  parse_repo_input ("octo" +:+ "/" +:+ "cat") = Ok (lstrip "octo", rstrip "cat").
Proof.
  apply (stored_entry_parses "https://github.com/octo/cat/releases" "octo" "cat").
  reflexivity.
Defined.

End StoredEntries.

(** ** A refused fetch on the screen *)

Section RefusedFetch.

Import Datetime GitHub Gpt App Main.

Variable strptime : string -> option datetime.
Variable dumps : list filtered_release -> string.
Variable srv : server.
Variable be : backend.

Lemma get_recent_releases_refused (self : GitHubClient) (fuel : nat)
    (now : datetime) (n_days st : Z) (body : outcome (list release)) :
  srv (page_request self 1) = Ok (Response st body) -> st <> 200 ->
  Z.abs n_days <= 999999999 ->
  in_range (now - n_days * us_per_day) = true ->
  get_recent_releases strptime srv self (S fuel) now n_days = Some (Ok []).
Proof.
  intros Hs Hst Hdays Hrange.
  unfold get_recent_releases, fetch_all_releases.
  rewrite (fetch_loop_refused srv self _ _ st body) by assumption. simpl.
  unfold timedelta_days.
  destruct (Z.leb_spec (Z.abs n_days) 999999999); [| lia]. simpl.
  unfold sub. now rewrite Hrange.
Qed.

(** X23.  A status other than 200 on the first page, 403 included, is
    shown as "No releases found or GitHub API returned 403": the fetch
    returns the empty list, so the message for an exception whose text
    holds 403 is not the one logged, and the backend is not called. *)
Theorem summarize_repo_refused (gpt_client : BaseGPTClient) (fuel : nat)
    (now : datetime) (n_days : Z) (language repo_str u r : string)
    (st : Z) (body : outcome (list release)) :
  Repo.parse_repo_input repo_str = Ok (u, r) ->
  srv (page_request (GitHub.new u r) 1) = Ok (Response st body) ->
  st <> 200 ->
  Z.abs n_days <= 999999999 ->
  in_range (now - n_days * us_per_day) = true ->
  summarize_repo strptime dumps srv be gpt_client (S fuel) now n_days language repo_str
  = Some ([header repo_str;
           StInfo ("Fetching GitHub releases for " +:+ repo_str +:+ "...");
           StError "No releases found or GitHub API returned 403. Skipping summarization for this repository."],
          None).
Proof.
  intros Hp Hs Hst Hdays Hrange. unfold summarize_repo.
  rewrite Hp, (get_recent_releases_refused _ _ _ _ st body) by assumption.
  reflexivity.
Qed.

End RefusedFetch.

Lemma summarize_repo_refused_witness :
  Main.summarize_repo Datetime.strptime_iso Scenario.dumps_versions
    Scenario.github Scenario.flaky (Gpt.OpenAIClient "key") 1 Scenario.now 7
    "English" "octo/none"
  = Some ([Main.header "octo/none";
           Main.StInfo "Fetching GitHub releases for octo/none...";
           Main.StError "No releases found or GitHub API returned 403. Skipping summarization for this repository."],
          None).
Proof.
  apply (summarize_repo_refused Datetime.strptime_iso Scenario.dumps_versions
           Scenario.github Scenario.flaky (Gpt.OpenAIClient "key") 0
           Scenario.now 7 "English" "octo/none" "octo" "none" 403 (Ok [])).
  - reflexivity.
  - reflexivity.
  - discriminate.
  - simpl. lia.
  - reflexivity.
Defined.
